(** * update_pkg_deps: a verification model

    A shallow embedding of [src/update_pkg_deps/main.py] (the final revision
    of the dependency updater) together with the two earlier revisions of
    [get_latest] found in [src/update_deps.py] and [src/update_pkg_deps.py].

    Conventions.
    - A Python [str] is modelled by [string], the UTF-8 encoding of its code
      points.  Splitting on the ASCII dash and lexicographic comparison give
      the same answers on the encoding as on the code points.
    - Objects decoded from JSON are modelled by [value].
    - Exceptions are modelled by [exn]; a computation that may raise returns
      a [result].
    - The heap, the network and the file system are threaded explicitly
      through the monad [M]. *)

From Stdlib Require Import ZArith Ascii String List.
From Stdlib Require QArith.
From stdpp Require Import gmap strings list sorting fin_maps.

Local Open Scope Z_scope.

(** ** Python values *)

(** The objects [json.loads] can produce.  A [dict] keeps its items in
    insertion order; a [float] is kept as its literal. *)
#[warnings="-register-all"]
Inductive value : Type :=
| VNone
| VBool (b : bool)
| VInt (z : Z)
| VFloat (lit : string)
| VStr (s : string)
| VList (items : list value)
| VDict (items : list (string * value)).

(** [@dataclass class Package]: [namespace] and [name] only ever hold the
    strings produced by [str.split]; [version] holds whatever the registry
    sent as [version_number], since a dataclass checks no types. *)
Record Package : Type := mkPackage {
  namespace : string;
  name : string;
  version : value
}.

(** ** Exceptions *)

Inductive exn : Type :=
| ValueError_unpack (got : nat)
    (* tuple unpacking of anything but three parts *)
| ValueError_parse (full_name : string) (cause : exn)
    (* 'Failed to parse package name "{full_name}"' ... from err *)
| ValueError_latest (pkg : Package) (cause : exn)
    (* "Failed to get latest version for package {pkg=}" ... from err *)
| ValueError_max_workers
    (* "max_workers must be greater than 0" *)
| ValueError_timeout
    (* a timeout that is zero or negative, refused by [requests.get] *)
| AttributeError (attr : string)
| KeyError (key : string)
| TypeError
| HTTPError (status : Z) (url : string)
| RequestException (kind : string)
    (* ConnectionError, Timeout, ... raised by [requests.get] *)
| JSONDecodeError
| FileNotFoundError (path : string)
| OSError (path : string)
| InvalidReference.
    (* a reference to no object: unreachable from [main] *)

Inductive result (A : Type) : Type :=
| Ok (a : A)
| Raise (e : exn).
Arguments Ok {A} a.
Arguments Raise {A} e.

Definition is_ok {A} (r : result A) : bool :=
  match r with Ok _ => true | Raise _ => false end.

(** ** [str.split] and the package identifier *)

(** [s.split(sep)] for a one-character separator: every occurrence of [sep]
    ends a part, and the empty string gives one empty part. *)
Fixpoint split (sep : ascii) (s : string) : list string :=
  match s with
  | EmptyString => [EmptyString]
  | String c s' =>
      if Ascii.eqb c sep then EmptyString :: split sep s'
      else match split sep s' with
           | part :: parts => String c part :: parts
           | [] => [String c EmptyString]
           end
  end.

(** Number of occurrences of a character. *)
Fixpoint count (sep : ascii) (s : string) : nat :=
  match s with
  | EmptyString => 0%nat
  | String c s' => ((if Ascii.eqb c sep then 1 else 0) + count sep s')%nat
  end.

Definition dash : ascii := "-"%char.

(** [sep.join(parts)]. *)
Fixpoint join (sep : ascii) (parts : list string) : string :=
  match parts with
  | [] => EmptyString
  | [part] => part
  | part :: parts' => part +:+ String sep (join sep parts')
  end.

(** [Package.from_str].  Only a [str] has a [split] method; the unpacking
    [namespace, name, version = ...] raises [ValueError] unless there are
    exactly three parts, and that error is re-raised with the full name. *)
Definition from_str (full_name : value) : result Package :=
  match full_name with
  | VStr s =>
      match split dash s with
      | [namespace; name; version] => Ok (mkPackage namespace name (VStr version))
      | parts => Raise (ValueError_parse s (ValueError_unpack (length parts)))
      end
  | _ => Raise (AttributeError "split")
  end.

Section Formatting.

(** [format(v, "")] of an object that is not a [str] ([None], a number, a
    list, ...), as an f-string computes it. *)
Variable format_other : value → string.

Definition format (v : value) : string :=
  match v with
  | VStr s => s
  | _ => format_other v
  end.

(** [Package.__str__]: [f"{self.namespace}-{self.name}-{self.version}"]. *)
Definition __str__ (self : Package) : string :=
  namespace self +:+ "-" +:+ name self +:+ "-" +:+ format (version self).

End Formatting.

(** [sorted] on a list of [str]: the list in ascending lexicographic order.
    Any sort computes the same list for a total order, see
    [sorted_unique]. *)
Definition sorted (l : list string) : list string :=
  merge_sort String.le l.

(** ** Subscripts and iteration *)

Fixpoint dict_get (key : string) (items : list (string * value)) : option value :=
  match items with
  | [] => None
  | (k, v) :: items' => if String.eqb k key then Some v else dict_get key items'
  end.

(** [d[key] = v] on the items of a [dict]: an existing key keeps its place. *)
Fixpoint dict_set (key : string) (v : value) (items : list (string * value))
  : list (string * value) :=
  match items with
  | [] => [(key, v)]
  | (k, v0) :: items' =>
      if String.eqb k key then (k, v) :: items'
      else (k, v0) :: dict_set key v items'
  end.

(** [obj[key]] for a [str] key. *)
Definition getitem (obj : value) (key : string) : result value :=
  match obj with
  | VDict items =>
      match dict_get key items with
      | Some v => Ok v
      | None => Raise (KeyError key)
      end
  | _ => Raise TypeError
  end.

(** A byte [10xxxxxx], which continues a character in UTF-8. *)
Definition is_continuation (c : ascii) : bool :=
  match c with
  | Ascii _ _ _ _ _ _ b6 b7 => b7 && negb b6
  end.

(** The characters of a [str], each the one-character [str] Python's
    iteration gives: a byte and the continuation bytes after it. *)
Fixpoint code_points (s : string) : list string :=
  match s with
  | EmptyString => []
  | String c s' =>
      let rest := code_points s' in
      match s' with
      | String c' _ =>
          if is_continuation c' then
            match rest with
            | cp :: cps => String c cp :: cps
            | [] => [String c EmptyString]
            end
          else String c EmptyString :: rest
      | EmptyString => String c EmptyString :: rest
      end
  end.

Definition chars (s : string) : list value := map VStr (code_points s).

(** The elements [for elem in obj] runs through. *)
Definition iter (obj : value) : result (list value) :=
  match obj with
  | VList items => Ok items
  | VDict items => Ok (map (λ kv, VStr (fst kv)) items)
  | VStr s => Ok (chars s)
  | _ => Raise TypeError
  end.

(** ** The world: heap, network log and files *)

Abbreviation loc := nat (only parsing).

(** One call of [requests.get]: [req_timeout = None] is a call without a
    timeout. *)
Record request : Type := mkRequest {
  req_url : string;
  req_timeout : option QArith_base.Q
}.

(** What the network answers: no response at all, or a response with its
    status code, its URL (the one asked for as [requests] encoded it, or
    the one the redirects led to) and its body, [None] when the body is not
    JSON. *)
Inductive http_outcome : Type :=
| NetworkFailure (kind : string)
| HTTPResponse (status : Z) (url : string) (body : option value).

(** What becomes of [Path.write_text]: the text is written; or the file
    cannot be opened, and is left as it was; or the file is opened, which
    empties it, and the write fails after [written] bytes. *)
Inductive write_result : Type :=
| Written
| Refused
| Failed (written : nat).

Record Response : Type := mkResponse {
  status_code : Z;
  url : string;
  json_body : option value
}.

(** [heap]: the objects passed by reference, the manifests; a location is
    an index.  The code assigns to no object below a manifest's top level,
    so what a manifest holds is kept by value.
    [net_log]: the calls of [requests.get] so far, each at most one
    request to the registry.
    [files]: the text files, by path. *)
Record world : Type := mkWorld {
  heap : list value;
  net_log : list request;
  files : gmap string string
}.

Definition set_heap (h : list value) (w : world) : world :=
  mkWorld h (net_log w) (files w).
Definition set_net_log (n : list request) (w : world) : world :=
  mkWorld (heap w) n (files w).
Definition set_files (f : gmap string string) (w : world) : world :=
  mkWorld (heap w) (net_log w) f.

(** ** The state and exception monad *)

Definition M (A : Type) : Type := world → result A * world.

Definition ret {A} (a : A) : M A := λ w, (Ok a, w).
Definition raise {A} (e : exn) : M A := λ w, (Raise e, w).
Definition lift {A} (r : result A) : M A := λ w, (r, w).
Definition bind {A B} (m : M A) (k : A → M B) : M B :=
  λ w, match m w with
       | (Ok a, w') => k a w'
       | (Raise e, w') => (Raise e, w')
       end.

Notation "x <- m ;; k" := (bind m (λ x, k))
  (at level 100, m at next level, right associativity).

(** [[f(x) for x in l]]: left to right, stopping at the first exception. *)
Fixpoint comprehension {A B} (f : A → result B) (l : list A) : result (list B) :=
  match l with
  | [] => Ok []
  | x :: l' =>
      match f x with
      | Raise e => Raise e
      | Ok y =>
          match comprehension f l' with
          | Raise e => Raise e
          | Ok ys => Ok (y :: ys)
          end
      end
  end.

(** *** Heap *)

Definition load (l : loc) : M value :=
  λ w, match heap w !! l with
       | Some v => (Ok v, w)
       | None => (Raise InvalidReference, w)
       end.

Definition alloc (v : value) : M loc :=
  λ w, (Ok (length (heap w)), set_heap (heap w ++ [v]) w).

Definition store (l : loc) (v : value) : M unit :=
  λ w, (Ok tt, set_heap (<[l:=v]> (heap w)) w).

(** [copy.deepcopy]: a new object holding what the old one holds. *)
Definition deepcopy (l : loc) : M loc :=
  v <- load l ;; alloc v.

(** [obj[key] = v] for the object at [l]. *)
Definition setitem (l : loc) (key : string) (v : value) : M unit :=
  obj <- load l ;;
  match obj with
  | VDict items => store l (VDict (dict_set key v items))
  | _ => raise TypeError
  end.

(** *** Files *)

Definition read_text (path : string) : M string :=
  λ w, match files w !! path with
       | Some text => (Ok text, w)
       | None => (Raise (FileNotFoundError path), w)
       end.

(** ** Constants of [main.py] *)

Definition _URL_API_EXP : string := "https://thunderstore.io/api/experimental".
Definition _DEFAULT_MAX_WORKERS : Z := 5.
Definition _TIMEOUT : QArith_base.Q := QArith_base.inject_Z 10.

(** ** The thread pool *)

(** [ThreadPoolExecutor(max_workers=...)] refuses a pool without workers. *)
Definition ThreadPoolExecutor (max_workers : Z) : M unit :=
  if max_workers <=? 0 then raise ValueError_max_workers else ret tt.

(** [concurrent.futures.as_completed]: every future once, in the order in
    which they complete.  The order is the scheduler's: with [n] futures
    pending, the next entry of [sched] (modulo the number pending) picks
    the one that completes next. *)
Fixpoint drain {A} (sched : list nat) (n : nat) (pending : list A) : list A :=
  match n, pending with
  | S n', first :: _ =>
      let k := (hd 0%nat sched mod length pending)%nat in
      nth k pending first :: drain (tl sched) n' (delete k pending)
  | _, _ => []
  end.

Definition as_completed {A} (sched : list nat) (fs : list A) : list A :=
  drain sched (length fs) fs.

Section Registry.

(** The registry, and whatever stands between it and the program: the
    answer to each request. *)
Variable network : request → http_outcome.

(** Whether [requests] takes the timeout: zero and negative ones are
    refused with a [ValueError], before anything is sent. *)
Definition valid_timeout (timeout : option QArith_base.Q) : bool :=
  match timeout with
  | Some seconds => negb (QArith_base.Qle_bool seconds (QArith_base.inject_Z 0))
  | None => true
  end.

(** [requests.get(url, timeout=timeout)]. *)
Definition requests_get (url : string) (timeout : option QArith_base.Q)
  : M Response :=
  λ w, let req := mkRequest url timeout in
       let w' := set_net_log (net_log w ++ [req]) w in
       if valid_timeout timeout then
         match network req with
         | NetworkFailure kind => (Raise (RequestException kind), w')
         | HTTPResponse status url' body =>
             (Ok (mkResponse status url' body), w')
         end
       else (Raise ValueError_timeout, w').

(** [Response.raise_for_status]: only 4xx and 5xx are errors. *)
Definition raise_for_status (response : Response) : result unit :=
  if (400 <=? status_code response) && (status_code response <? 600)
  then Raise (HTTPError (status_code response) (url response))
  else Ok tt.

(** [Response.json]. *)
Definition json (response : Response) : result value :=
  match json_body response with
  | Some v => Ok v
  | None => Raise JSONDecodeError
  end.

Definition package_url (self : Package) : string :=
  _URL_API_EXP +:+ "/package/" +:+ namespace self +:+ "/" +:+ name self +:+ "/".

(** [Package.get_latest] of [main.py]; [timeout = None] is the call that
    leaves the argument out. *)
Definition get_latest (self : Package) (timeout : option QArith_base.Q)
  : M Package :=
  let timeout := default _TIMEOUT timeout in
  let url := package_url self in
  response <- requests_get url (Some timeout) ;;
  _ <- lift (raise_for_status response) ;;
  body <- lift (json response) ;;
  latest <- lift (getitem body "latest") ;;
  version_number <- lift (getitem latest "version_number") ;;
  ret (mkPackage (namespace self) (name self) version_number).

End Registry.

(** A finished future: what [future.result()] returns or raises. *)
Definition Future : Type := result Package.

(** What one lookup returns or raises, given the registry's answers: the
    outcome of [pkg.get_latest()] with the default timeout. *)
Definition empty_world : world := mkWorld [] [] ∅.

Definition fetch (network : request → http_outcome) (pkg : Package)
  : result Package :=
  fst (get_latest network pkg None empty_world).

(** The request [pkg.get_latest()] sends. *)
Definition request_of (pkg : Package) : request :=
  mkRequest (package_url pkg) (Some _TIMEOUT).

(** The [dependencies] entry of the manifest a run returned, if it
    returned one. *)
Definition output_dependencies (run : result loc * world) : option value :=
  match fst run with
  | Ok l =>
      match heap (snd run) !! l with
      | Some (VDict items) => dict_get "dependencies" items
      | _ => None
      end
  | Raise _ => None
  end.

(** What [future.result()] returns, if it returns. *)
Definition returned (fp : Future * Package) : option Package :=
  match fst fp with
  | Ok latest => Some latest
  | Raise _ => None
  end.

(** ** Earlier revisions of [get_latest] *)

(** [src/update_deps.py]: no timeout, and the status is never looked at. *)
Module update_deps.
Section Registry.
Variable network : request → http_outcome.

Definition get_latest (self : Package) : M Package :=
  let url := package_url self in
  response <- requests_get network url None ;;
  body <- lift (json response) ;;
  latest <- lift (getitem body "latest") ;;
  version_number <- lift (getitem latest "version_number") ;;
  ret (mkPackage (namespace self) (name self) version_number).

End Registry.
End update_deps.

(** [src/update_pkg_deps.py]: the status is checked, still no timeout. *)
Module update_pkg_deps.
Section Registry.
Variable network : request → http_outcome.

Definition get_latest (self : Package) : M Package :=
  let url := package_url self in
  response <- requests_get network url None ;;
  _ <- lift (raise_for_status response) ;;
  body <- lift (json response) ;;
  latest <- lift (getitem body "latest") ;;
  version_number <- lift (getitem latest "version_number") ;;
  ret (mkPackage (namespace self) (name self) version_number).

End Registry.
End update_pkg_deps.

(** ** [update_manifest_deps] and [main] of [main.py] *)

(** What [parse_args] returns. *)
Record Namespace : Type := mkNamespace {
  args_input : string;
  args_output : string;
  args_max_workers : Z;
  args_verbose : bool
}.

Section Program.

Variable format_other : value → string.
Variable network : request → http_outcome.

(** [json.loads], [None] for text that is not JSON, and
    [json.dumps(_, indent=4)]. *)
Variable json_loads : string → option value.
Variable json_dumps : value → string.

(** What becomes of a write to the file at a path. *)
Variable writable : string → write_result.

(** [executor.submit(pkg.get_latest)]: the call runs on a worker, with the
    default timeout; what it returns or raises is kept in the future.  The
    pool runs every task it was given before the [with] block is left, so
    each request is in the log by then; the log lists them in the order of
    submission. *)
Definition submit (pkg : Package) : M Future :=
  λ w, let (r, w') := get_latest network pkg None w in (Ok r, w').

(** [{executor.submit(pkg.get_latest): pkg for pkg in deps_orig}]: one
    future for each entry, equal entries included. *)
Fixpoint submit_all (deps_orig : list Package) : M (list (Future * Package)) :=
  match deps_orig with
  | [] => ret []
  | pkg :: rest =>
      future <- submit pkg ;;
      future_to_pkg <- submit_all rest ;;
      ret ((future, pkg) :: future_to_pkg)
  end.

(** The loop over [as_completed]: results are appended to [deps_latest];
    the first future that raised ends the loop with a [ValueError] naming
    its package. *)
Fixpoint gather (completed : list (Future * Package)) (deps_latest : list Package)
  : result (list Package) :=
  match completed with
  | [] => Ok deps_latest
  | (future, pkg) :: rest =>
      match future with
      | Ok latest => gather rest (deps_latest ++ [latest])
      | Raise err => Raise (ValueError_latest pkg err)
      end
  end.

(** [update_manifest_deps(manifest, max_workers)], with the order [sched]
    in which the pool happens to finish its tasks. *)
Definition update_manifest_deps (sched : list nat) (manifest : loc) (max_workers : Z)
  : M loc :=
  manifest <- deepcopy manifest ;;
  obj <- load manifest ;;
  dependencies <- lift (getitem obj "dependencies") ;;
  elems <- lift (iter dependencies) ;;
  deps_orig <- lift (comprehension from_str elems) ;;
  _ <- ThreadPoolExecutor max_workers ;;
  future_to_pkg <- submit_all deps_orig ;;
  deps_latest <- lift (gather (as_completed sched future_to_pkg) []) ;;
  _ <- setitem manifest "dependencies"
         (VList (map VStr (sorted (map (__str__ format_other) deps_latest)))) ;;
  ret manifest.

(** The futures of a run, in the order of submission: what the proofs
    below call the lookups of a run. *)
Definition futures (deps_orig : list Package) : list (Future * Package) :=
  map (λ pkg, (fetch network pkg, pkg)) deps_orig.

(** The manifest with its dependencies replaced. *)
Definition updated (items : list (string * value)) (deps_latest : list Package)
  : value :=
  VDict (dict_set "dependencies"
           (VList (map VStr (sorted (map (__str__ format_other) deps_latest))))
           items).

(** [json.loads(text)]: a new object. *)
Definition loads (text : string) : M loc :=
  match json_loads text with
  | Some v => alloc v
  | None => raise JSONDecodeError
  end.

Definition write_text (path : string) (text : string) : M unit :=
  λ w, match writable path with
       | Written => (Ok tt, set_files (<[path:=text]> (files w)) w)
       | Refused => (Raise (OSError path), w)
       | Failed written =>
           (Raise (OSError path),
            set_files (<[path:=String.substring 0 written text]> (files w)) w)
       end.

(** [main()], after [parse_args]; logging is left out. *)
Definition main (sched : list nat) (args : Namespace) : M unit :=
  manifest_orig_text <- read_text (args_input args) ;;
  manifest_orig <- loads manifest_orig_text ;;
  manifest_updated <-
    update_manifest_deps sched manifest_orig (args_max_workers args) ;;
  obj <- load manifest_updated ;;
  write_text (args_output args) (json_dumps obj).

End Program.

(** ** [update_manifest_deps] and [main] of the earlier revisions *)

(** [src/update_deps.py]: the lookups are made one after the other, and
    the output keeps the order of the input. *)
Module update_deps_program.

(** What [parse_args] returns: neither path is required, and an option
    left out is [None]. *)
Record Namespace : Type := mkNamespace {
  args_input : option string;
  args_output : option string;
  args_verbose : bool
}.

(** [Path(arg)]: [None] is no path. *)
Definition Path (arg : option string) : M string :=
  match arg with
  | Some path => ret path
  | None => raise TypeError
  end.

Section Program.

Variable format_other : value → string.
Variable network : request → http_outcome.
Variable json_loads : string → option value.
Variable json_dumps : value → string.
Variable writable : string → write_result.

(** [[str(dep.get_latest()) for dep in deps_orig]]. *)
Fixpoint latest_strs (deps_orig : list Package) : M (list string) :=
  match deps_orig with
  | [] => ret []
  | dep :: rest =>
      latest <- update_deps.get_latest network dep ;;
      strs <- latest_strs rest ;;
      ret (__str__ format_other latest :: strs)
  end.

Definition update_manifest_deps (manifest : loc) : M loc :=
  manifest <- deepcopy manifest ;;
  obj <- load manifest ;;
  dependencies <- lift (getitem obj "dependencies") ;;
  elems <- lift (iter dependencies) ;;
  deps_orig <- lift (comprehension from_str elems) ;;
  strs <- latest_strs deps_orig ;;
  _ <- setitem manifest "dependencies" (VList (map VStr strs)) ;;
  ret manifest.

Definition main (args : Namespace) : M unit :=
  path_in <- Path (args_input args) ;;
  path_out <- Path (args_output args) ;;
  manifest_orig_text <- read_text path_in ;;
  manifest_orig <- loads json_loads manifest_orig_text ;;
  manifest_updated <- update_manifest_deps manifest_orig ;;
  obj <- load manifest_updated ;;
  write_text writable path_out (json_dumps obj).

End Program.
End update_deps_program.

(** [src/update_pkg_deps.py]: the thread pool is there, the sort is not:
    the output is in the order of completion. *)
Module update_pkg_deps_program.

Record Namespace : Type := mkNamespace {
  args_input : option string;
  args_output : option string;
  args_verbose : bool
}.

Section Program.

Variable format_other : value → string.
Variable network : request → http_outcome.
Variable json_loads : string → option value.
Variable json_dumps : value → string.
Variable writable : string → write_result.

Definition submit (pkg : Package) : M Future :=
  λ w, let (r, w') := update_pkg_deps.get_latest network pkg w in (Ok r, w').

Fixpoint submit_all (deps_orig : list Package) : M (list (Future * Package)) :=
  match deps_orig with
  | [] => ret []
  | pkg :: rest =>
      future <- submit pkg ;;
      future_to_pkg <- submit_all rest ;;
      ret ((future, pkg) :: future_to_pkg)
  end.

(** [max_workers = None] is the call that leaves the argument out. *)
Definition update_manifest_deps
    (sched : list nat) (manifest : loc) (max_workers : option Z) : M loc :=
  let max_workers := default _DEFAULT_MAX_WORKERS max_workers in
  manifest <- deepcopy manifest ;;
  obj <- load manifest ;;
  dependencies <- lift (getitem obj "dependencies") ;;
  elems <- lift (iter dependencies) ;;
  deps_orig <- lift (comprehension from_str elems) ;;
  _ <- ThreadPoolExecutor max_workers ;;
  future_to_pkg <- submit_all deps_orig ;;
  deps_latest <- lift (gather (as_completed sched future_to_pkg) []) ;;
  _ <- setitem manifest "dependencies"
         (VList (map VStr (map (__str__ format_other) deps_latest))) ;;
  ret manifest.

Definition main (sched : list nat) (args : Namespace) : M unit :=
  path_in <- update_deps_program.Path (args_input args) ;;
  path_out <- update_deps_program.Path (args_output args) ;;
  manifest_orig_text <- read_text path_in ;;
  manifest_orig <- loads json_loads manifest_orig_text ;;
  manifest_updated <- update_manifest_deps sched manifest_orig None ;;
  obj <- load manifest_updated ;;
  write_text writable path_out (json_dumps obj).

End Program.
End update_pkg_deps_program.

(** What one lookup of each earlier revision returns or raises, and the
    request it sends. *)
Definition fetch_update_deps (network : request → http_outcome) (pkg : Package)
  : result Package :=
  fst (update_deps.get_latest network pkg empty_world).

Definition fetch_update_pkg_deps (network : request → http_outcome) (pkg : Package)
  : result Package :=
  fst (update_pkg_deps.get_latest network pkg empty_world).

Definition request_without_timeout (pkg : Package) : request :=
  mkRequest (package_url pkg) None.

Definition slash : ascii := "/"%char.

(** ** A registry and manifests to run the model on *)

(** The scenario of the specification: the registry knows [acme/widget], at
    1.2.0, and [acme/gadget], at 2.1.0, and answers 404 for anything else. *)
Definition scenario_body (version_number : string) : option value :=
  Some (VDict [("latest", VDict [("version_number", VStr version_number)])]).

Definition scenario_network (req : request) : http_outcome :=
  if String.eqb (req_url req) (_URL_API_EXP +:+ "/package/acme/widget/")
  then HTTPResponse 200 (req_url req) (scenario_body "1.2.0")
  else if String.eqb (req_url req) (_URL_API_EXP +:+ "/package/acme/gadget/")
  then HTTPResponse 200 (req_url req) (scenario_body "2.1.0")
  else HTTPResponse 404 (req_url req) None.

(** A registry with one answer to everything. *)
Definition answering (status : Z) (body : option value) (req : request)
  : http_outcome :=
  HTTPResponse status (req_url req) body.

(** A file system on which every write goes through. *)
Definition always_written (path : string) : write_result := Written.

(** Formatting for runs that format nothing but strings. *)
Definition scenario_format (v : value) : string := "None".

Definition scenario_manifest : value :=
  VDict [("dependencies",
          VList [VStr "acme-widget-1.0.0"; VStr "acme-gadget-2.1.0"])].

(** A manifest with a dependency the registry does not know. *)
Definition unknown_manifest : value :=
  VDict [("dependencies",
          VList [VStr "acme-widget-1.0.0"; VStr "acme-missing-0.1.0"])].

(** A manifest with an entry that is no identifier. *)
Definition malformed_manifest : value :=
  VDict [("dependencies", VList [VStr "acme-widget-1.0.0"; VStr "a-b"])].

(** A decoder and an encoder for the files of [scenario_world]. *)
Definition scenario_loads (text : string) : option value :=
  if String.eqb text "scenario" then Some scenario_manifest
  else if String.eqb text "unknown" then Some unknown_manifest
  else None.

Definition scenario_dumps (v : value) : string := "updated".

Definition scenario_world : world :=
  mkWorld [] [] {[ "manifest.json" := "unknown" ]}.

Definition widget : Package := mkPackage "acme" "widget" (VStr "1.0.0").
Definition gadget : Package := mkPackage "acme" "gadget" (VStr "2.1.0").
Definition missing : Package := mkPackage "acme" "missing" (VStr "0.1.0").

(** ** Properties of [split] *)

Lemma split_length sep s : length (split sep s) = S (count sep s).
Proof.
  induction s as [|c s IH]; simpl; [done|].
  destruct (Ascii.eqb c sep); simpl; [by rewrite IH|].
  destruct (split sep s) as [|part parts]; simpl in *; lia.
Qed.

Lemma split_no_sep sep s : count sep s = 0%nat → split sep s = [s].
Proof.
  induction s as [|c s IH]; simpl; [done|].
  destruct (Ascii.eqb c sep); [done|]. simpl. intros H.
  by rewrite (IH H).
Qed.

Lemma split_app sep a b :
  count sep a = 0%nat →
  split sep (a +:+ String sep b) = a :: split sep b.
Proof.
  induction a as [|c a IH]; simpl.
  - intros _. by rewrite Ascii.eqb_refl.
  - destruct (Ascii.eqb c sep); [done|]. simpl. intros H.
    by rewrite (IH H).
Qed.

Lemma split_three a b c :
  count dash a = 0%nat → count dash b = 0%nat → count dash c = 0%nat →
  split dash (a +:+ "-" +:+ b +:+ "-" +:+ c) = [a; b; c].
Proof.
  intros Ha Hb Hc.
  change (a +:+ "-" +:+ b +:+ "-" +:+ c)
    with (a +:+ String dash (b +:+ String dash c)).
  by rewrite !split_app, split_no_sep.
Qed.

Lemma split_nonempty sep s : split sep s ≠ [].
Proof.
  destruct s as [|c s]; simpl; [done|].
  destruct (Ascii.eqb c sep); [done|]. by destruct (split sep s).
Qed.

(** Joining the parts with the separator gives the string back. *)
Lemma join_split sep s : join sep (split sep s) = s.
Proof.
  induction s as [|c s IH]; simpl; [done|].
  pose proof (split_nonempty sep s) as Hne.
  destruct (Ascii.eqb_spec c sep) as [->|_].
  - destruct (split sep s) as [|part parts]; [done|].
    simpl in *. by rewrite IH.
  - destruct (split sep s) as [|part parts]; [done|].
    destruct parts; simpl in *; by rewrite <- IH.
Qed.

Lemma split_join3 sep s a b c :
  split sep s = [a; b; c] →
  s = a +:+ String sep (b +:+ String sep c).
Proof.
  intros H. rewrite <- (join_split sep s) at 1. by rewrite H.
Qed.

(** [split] keeps the empty parts. *)
Example split_examples :
  split dash "" = [""] ∧ split dash "-" = [""; ""] ∧
  split dash "a--b" = ["a"; ""; "b"] ∧ split dash "a-b-c" = ["a"; "b"; "c"].
Proof. repeat split; reflexivity. Qed.

(** A [str] is iterated character by character, not byte by byte. *)
Example iter_characters :
  iter (VStr "aé€") = Ok [VStr "a"; VStr "é"; VStr "€"] ∧
  iter (VStr "") = Ok [].
Proof. split; reflexivity. Qed.

(** ** The package identifier *)

Lemma from_str_Ok s p :
  from_str (VStr s) = Ok p ↔
  ∃ a b c, split dash s = [a; b; c] ∧ p = mkPackage a b (VStr c).
Proof.
  unfold from_str.
  destruct (split dash s) as [|a [|b [|c [|d l]]]]; split;
    try (intros [= <-]; eauto); try (intros (?&?&?&[=]&_); fail).
  by intros (?&?&?&[= -> -> ->]&->).
Qed.

Lemma from_str_Raise s e :
  from_str (VStr s) = Raise e ↔
  length (split dash s) ≠ 3%nat ∧
  e = ValueError_parse s (ValueError_unpack (length (split dash s))).
Proof.
  unfold from_str.
  destruct (split dash s) as [|a [|b [|c [|d l]]]]; simpl; split;
    try (intros [= <-]; split; [lia|done]);
    try (intros [_ ->]; done); try done.
  intros [? _]. lia.
Qed.

(** Whatever parses is written back as it was read. *)
Lemma from_str_str format_other s p :
  from_str (VStr s) = Ok p → __str__ format_other p = s.
Proof.
  intros (a & b & c & Hs & ->)%from_str_Ok.
  apply split_join3 in Hs. by subst.
Qed.

(** C3: parsing and formatting are mutually inverse on identifiers of three
    dash-free components: the string [ns-name-ver] parses to the package
    [(ns, name, ver)], which is formatted back to the same string, and the
    formatted package parses back to the package. *)
Theorem from_str_str_roundtrip format_other ns nm ver :
  count dash ns = 0%nat → count dash nm = 0%nat → count dash ver = 0%nat →
  let s := ns +:+ "-" +:+ nm +:+ "-" +:+ ver in
  let p := mkPackage ns nm (VStr ver) in
  from_str (VStr s) = Ok p ∧
  __str__ format_other p = s ∧
  (∀ q, from_str (VStr s) = Ok q → __str__ format_other q = s) ∧
  from_str (VStr (__str__ format_other p)) = Ok p.
Proof.
  intros Hns Hnm Hver s p.
  assert (from_str (VStr s) = Ok p) as Hparse.
  { unfold from_str, s. by rewrite split_three. }
  split; [exact Hparse|]. split; [reflexivity|]. split.
  - intros q Hq. by apply from_str_str.
  - exact Hparse.
Qed.

Lemma from_str_str_roundtrip_witness :
  from_str (VStr "acme-widget-1.0.0") = Ok (mkPackage "acme" "widget" (VStr "1.0.0")) ∧
  __str__ (λ _, "None") (mkPackage "acme" "widget" (VStr "1.0.0")) = "acme-widget-1.0.0".
Proof.
  pose proof (from_str_str_roundtrip (λ _, "None") "acme" "widget" "1.0.0"
                eq_refl eq_refl eq_refl) as (H1 & H2 & _).
  split; [exact H1 | exact H2].
Defined.

(** C4: on a string, [from_str] fails, with the error naming the string,
    exactly when splitting on the dash does not give three parts; "a-b" and
    "a-b-c-d" fail; and a string with exactly two dashes parses. *)
Theorem from_str_malformed :
  (∀ s, (∃ cause, from_str (VStr s) = Raise (ValueError_parse s cause)) ↔
        length (split dash s) ≠ 3%nat) ∧
  (∀ s, is_ok (from_str (VStr s)) = false ↔ length (split dash s) ≠ 3%nat) ∧
  from_str (VStr "a-b") = Raise (ValueError_parse "a-b" (ValueError_unpack 2)) ∧
  from_str (VStr "a-b-c-d") =
    Raise (ValueError_parse "a-b-c-d" (ValueError_unpack 4)) ∧
  (∀ s, count dash s = 2%nat ↔ ∃ p, from_str (VStr s) = Ok p).
Proof.
  split; [|split; [|split; [done|split; [done|]]]].
  - intros s. split.
    + intros [cause H]. by apply from_str_Raise in H as [? _].
    + intros H. eexists. apply from_str_Raise. by split.
  - intros s. destruct (from_str (VStr s)) as [p|e] eqn:E; simpl.
    + apply from_str_Ok in E as (a & b & c & E & _). rewrite E. simpl.
      split; [done|lia].
    + by apply from_str_Raise in E as [? _].
  - intros s. split.
    + intros H.
      pose proof (split_length dash s) as Hlen. rewrite H in Hlen.
      destruct (split dash s) as [|a [|b [|c [|d l]]]] eqn:E; try done.
      exists (mkPackage a b (VStr c)). apply from_str_Ok. eauto.
    + intros [p (a & b & c & E & _)%from_str_Ok].
      pose proof (split_length dash s) as Hlen. rewrite E in Hlen.
      simpl in Hlen. lia.
Qed.

(** ** Running the monad *)

Lemma bind_run {A B} (m : M A) (k : A → M B) w :
  (x <- m ;; k x) w =
  match m w with
  | (Ok a, w') => k a w'
  | (Raise e, w') => (Raise e, w')
  end.
Proof. done. Qed.

Lemma set_net_log_nil w : set_net_log (net_log w ++ []) w = w.
Proof. destruct w. unfold set_net_log. simpl. by rewrite app_nil_r. Qed.

Lemma set_net_log_app l1 l2 w :
  set_net_log (net_log (set_net_log (net_log w ++ l1) w) ++ l2)
    (set_net_log (net_log w ++ l1) w) =
  set_net_log (net_log w ++ l1 ++ l2) w.
Proof. unfold set_net_log. simpl. by rewrite app_assoc. Qed.

(** ** One lookup *)

Section Lookup.

Variable network : request → http_outcome.

(** A lookup sends one request, and what it returns or raises depends on
    the registry's answer alone. *)
Lemma get_latest_run self timeout w :
  get_latest network self timeout w =
  (fst (get_latest network self timeout empty_world),
   set_net_log
     (net_log w ++ [mkRequest (package_url self) (Some (default _TIMEOUT timeout))])
     w).
Proof.
  unfold get_latest. rewrite !bind_run. unfold requests_get.
  destruct (valid_timeout _); [|done].
  destruct (network _) as [kind|status url' body]; [done|].
  rewrite !bind_run. unfold lift.
  destruct (raise_for_status _); [|done].
  rewrite !bind_run.
  destruct (json _) as [b|]; [|done].
  rewrite !bind_run.
  destruct (getitem b _) as [latest|]; [|done].
  rewrite !bind_run.
  by destruct (getitem latest _).
Qed.

Lemma submit_run pkg w :
  submit network pkg w =
  (Ok (fetch network pkg), set_net_log (net_log w ++ [request_of pkg]) w).
Proof. unfold submit. by rewrite get_latest_run. Qed.

Lemma submit_all_run deps_orig w :
  submit_all network deps_orig w =
  (Ok (map (λ pkg, (fetch network pkg, pkg)) deps_orig),
   set_net_log (net_log w ++ map request_of deps_orig) w).
Proof.
  revert w. induction deps_orig as [|pkg rest IH]; intros w; simpl.
  - by rewrite set_net_log_nil.
  - rewrite bind_run, submit_run, bind_run, IH. unfold ret.
    by rewrite set_net_log_app.
Qed.

End Lookup.

(** ** The order of completion *)

Lemma drain_S {A} (sched : list nat) n (pending : list A) k x :
  (hd 0 sched mod length pending)%nat = k →
  pending !! k = Some x →
  drain sched (S n) pending = x :: drain (tl sched) n (delete k pending).
Proof.
  destruct pending as [|first rest]; [done|].
  intros <- Hx. cbn [drain]. f_equal. by apply nth_lookup_Some.
Qed.

Lemma drain_Permutation {A} (sched : list nat) n (pending : list A) :
  length pending = n → drain sched n pending ≡ₚ pending.
Proof.
  revert sched pending. induction n as [|n IH]; intros sched pending Hlen.
  - by destruct pending.
  - set (k := (hd 0 sched mod length pending)%nat).
    assert (k < length pending)%nat as Hk
      by (apply Nat.mod_upper_bound; lia).
    destruct (lookup_lt_is_Some_2 _ _ Hk) as [x Hx].
    rewrite (drain_S _ _ _ k x) by done.
    rewrite IH.
    + symmetry. by apply delete_Permutation.
    + rewrite length_delete by eauto. lia.
Qed.

(** [as_completed] yields every future exactly once. *)
Lemma as_completed_Permutation {A} (sched : list nat) (fs : list A) :
  as_completed sched fs ≡ₚ fs.
Proof. by apply drain_Permutation. Qed.

(** Every order of completion is the scheduler's to choose. *)
Lemma as_completed_any_order {A} (fs completed : list A) :
  completed ≡ₚ fs → ∃ sched, as_completed sched fs = completed.
Proof.
  unfold as_completed.
  revert fs. induction completed as [|x completed IH]; intros fs Hperm.
  - apply Permutation_nil in Hperm. subst fs. by exists [].
  - assert (x ∈ fs) as Hx by (rewrite <- Hperm; left).
    apply list_elem_of_lookup in Hx as [k Hk].
    pose proof (lookup_lt_Some _ _ _ Hk) as Hlt.
    pose proof (delete_Permutation _ _ _ Hk) as Hdel.
    assert (completed ≡ₚ delete k fs) as Hrest.
    { apply (Permutation_cons_inv (a:=x)). by rewrite Hperm, <- Hdel. }
    destruct (IH _ Hrest) as [sched Hsched].
    exists (k :: sched).
    assert (length fs = S (length (delete k fs))) as Hlen.
    { rewrite length_delete by eauto. lia. }
    rewrite Hlen, (drain_S _ _ _ k x); [by rewrite <- Hsched| |done].
    simpl. by apply Nat.mod_small.
Qed.

(** ** The loop over the completed futures *)

Lemma gather_Ok completed deps_latest :
  Forall (λ fp, is_ok (fst fp) = true) completed →
  gather completed deps_latest = Ok (deps_latest ++ omap returned completed).
Proof.
  revert deps_latest.
  induction completed as [|[[latest|err] pkg] rest IH]; intros deps_latest Hall.
  - simpl. by rewrite app_nil_r.
  - simpl. inv Hall. rewrite IH by done. by rewrite <- app_assoc.
  - by inv Hall.
Qed.

Lemma gather_Raise completed deps_latest :
  Exists (λ fp, is_ok (fst fp) = false) completed →
  ∃ pkg cause, (Raise cause, pkg) ∈ completed ∧
    gather completed deps_latest = Raise (ValueError_latest pkg cause).
Proof.
  revert deps_latest.
  induction completed as [|[[latest|err] pkg] rest IH]; intros deps_latest Hex.
  - inv Hex.
  - apply Exists_cons in Hex as [Hbad|Hex]; [done|].
    destruct (IH (deps_latest ++ [latest]) Hex) as (p & c & Hin & Hg).
    exists p, c. split; [by right|done].
  - exists pkg, err. split; [left|done].
Qed.

(** ** Sorting *)

Lemma sorted_Sorted l : Sorted String.le (sorted l).
Proof. apply (Sorted_merge_sort _). Qed.

Lemma sorted_Permutation l : sorted l ≡ₚ l.
Proof. apply merge_sort_Permutation. Qed.

(** There is one ascending arrangement of a list of strings: any sort
    returns what [sorted] returns. *)
Lemma sorted_unique l k :
  Sorted String.le k → k ≡ₚ l → k = sorted l.
Proof.
  intros Hk Hperm. apply (Sorted_unique String.le); [done|apply sorted_Sorted|].
  by rewrite sorted_Permutation.
Qed.

Lemma sorted_Permutation_eq l1 l2 : l1 ≡ₚ l2 → sorted l1 = sorted l2.
Proof.
  intros Hperm. apply sorted_unique; [apply sorted_Sorted|].
  by rewrite sorted_Permutation.
Qed.

(** ** Runs of [update_manifest_deps] *)

Lemma comprehension_Forall2 {A B} (f : A → result B) l l' :
  comprehension f l = Ok l' ↔ Forall2 (λ x y, f x = Ok y) l l'.
Proof.
  revert l'. induction l as [|x l IH]; intros l'; simpl.
  - split; [intros [= <-]; constructor|by inversion 1].
  - destruct (f x) as [y|e] eqn:Hx.
    + destruct (comprehension f l) as [ys|e] eqn:Hl.
      * split.
        -- intros [= <-]. constructor; [done|by apply IH].
        -- inversion 1 as [|? y' ? ys' Hy Hys]; subst.
           apply IH in Hys. congruence.
      * split; [done|]. inversion 1 as [|? y' ? ys' Hy Hys]; subst.
        by apply IH in Hys.
    + split; [done|]. inversion 1; congruence.
Qed.

Lemma comprehension_Raise {A B} (f : A → result B) l x :
  x ∈ l → is_ok (f x) = false → is_ok (comprehension f l) = false.
Proof.
  induction 1 as [x l|x y l Hin IH]; simpl; intros Hx.
  - by destruct (f x).
  - destruct (f y); [|done]. specialize (IH Hx).
    by destruct (comprehension f l).
Qed.

Section Run.

Variable format_other : value → string.
Variable network : request → http_outcome.

Lemma update_manifest_deps_dangling sched manifest max_workers w :
  heap w !! manifest = None →
  update_manifest_deps format_other network sched manifest max_workers w =
  (Raise InvalidReference, w).
Proof.
  intros Hw. unfold update_manifest_deps, deepcopy, load.
  rewrite !bind_run. by rewrite Hw.
Qed.

(** The run, stage by stage: the copy is made first; the lookups start only
    once every entry has been parsed and the pool exists; the copy is
    assigned to once, at the end. *)
Lemma update_manifest_deps_run sched manifest max_workers w obj :
  heap w !! manifest = Some obj →
  update_manifest_deps format_other network sched manifest max_workers w =
  let copy := length (heap w) in
  let w1 := set_heap (heap w ++ [obj]) w in
  match getitem obj "dependencies" with
  | Raise e => (Raise e, w1)
  | Ok dependencies =>
  match iter dependencies with
  | Raise e => (Raise e, w1)
  | Ok elems =>
  match comprehension from_str elems with
  | Raise e => (Raise e, w1)
  | Ok deps_orig =>
  if max_workers <=? 0 then (Raise ValueError_max_workers, w1) else
  let w2 := set_net_log (net_log w ++ map request_of deps_orig) w1 in
  match gather (as_completed sched (futures network deps_orig)) [] with
  | Raise e => (Raise e, w2)
  | Ok deps_latest =>
  match obj with
  | VDict items =>
      (Ok copy, set_heap (heap w ++ [updated format_other items deps_latest]) w2)
  | _ => (Raise TypeError, w2)
  end end end end end.
Proof.
  intros Hw. unfold update_manifest_deps, deepcopy, load, alloc.
  rewrite !bind_run, Hw, !bind_run. simpl.
  assert ((heap w ++ [obj]) !! length (heap w) = Some obj) as Hcopy
    by apply list_lookup_middle, eq_refl.
  rewrite Hcopy, !bind_run. unfold lift.
  destruct (getitem obj "dependencies") as [dependencies|]; [|done].
  rewrite !bind_run.
  destruct (iter dependencies) as [elems|]; [|done].
  rewrite !bind_run.
  destruct (comprehension from_str elems) as [deps_orig|]; [|done].
  rewrite !bind_run. unfold ThreadPoolExecutor.
  destruct (max_workers <=? 0); [done|]. unfold ret at 1.
  rewrite !bind_run, submit_all_run, !bind_run. fold (futures network deps_orig).
  destruct (gather _ []) as [deps_latest|]; [|done].
  rewrite !bind_run. unfold setitem, load. rewrite !bind_run. simpl.
  rewrite Hcopy.
  destruct obj; try done.
  unfold store, ret, updated. simpl. do 2 f_equal.
  rewrite <- (Nat.add_0_r (length (heap w))).
  by rewrite insert_app_r.
Qed.

Lemma futures_Ok deps_orig deps_latest :
  comprehension (fetch network) deps_orig = Ok deps_latest →
  Forall (λ fp, is_ok (fst fp) = true) (futures network deps_orig) ∧
  omap returned (futures network deps_orig) = deps_latest.
Proof.
  intros H%comprehension_Forall2. unfold futures.
  induction H as [|pkg latest deps_orig deps_latest Hpkg _ [IH1 IH2]]; simpl.
  - by split.
  - split.
    + constructor; [simpl; by rewrite Hpkg|done].
    + unfold returned at 1. simpl. rewrite Hpkg. simpl. by f_equal.
Qed.

(** Each lookup returns or some lookup raises. *)
Lemma fetch_all deps_orig :
  (∃ deps_latest, comprehension (fetch network) deps_orig = Ok deps_latest) ∨
  (∃ pkg, pkg ∈ deps_orig ∧ is_ok (fetch network pkg) = false).
Proof.
  induction deps_orig as [|pkg rest [[l Hl]|(p & Hin & Hp)]]; simpl.
  - left. by eexists.
  - destruct (fetch network pkg) as [latest|e] eqn:E.
    + left. rewrite Hl. by eexists.
    + right. exists pkg. split; [left|by rewrite E].
  - right. exists p. split; [by right|done].
Qed.

(** When every lookup returns, the loop gathers all the results, in the
    order of completion. *)
Lemma gather_as_completed_Ok sched deps_orig deps_latest :
  comprehension (fetch network) deps_orig = Ok deps_latest →
  ∃ gathered,
    gather (as_completed sched (futures network deps_orig)) [] = Ok gathered ∧
    gathered ≡ₚ deps_latest.
Proof.
  intros [Hall Hret]%futures_Ok.
  pose proof (as_completed_Permutation sched (futures network deps_orig)) as Hperm.
  eexists. split.
  - apply gather_Ok. by rewrite Hperm.
  - simpl. by rewrite Hperm, Hret.
Qed.

(** When some lookup raises, so does the loop, naming a package whose
    lookup raised. *)
Lemma gather_as_completed_Raise sched deps_orig pkg :
  pkg ∈ deps_orig → is_ok (fetch network pkg) = false →
  ∃ failed cause,
    failed ∈ deps_orig ∧ fetch network failed = Raise cause ∧
    gather (as_completed sched (futures network deps_orig)) [] =
      Raise (ValueError_latest failed cause).
Proof.
  intros Hin Hpkg.
  pose proof (as_completed_Permutation sched (futures network deps_orig)) as Hperm.
  destruct (gather_Raise (as_completed sched (futures network deps_orig)) [])
    as (failed & cause & Hf & Hg).
  { rewrite Hperm. apply Exists_exists. exists (fetch network pkg, pkg).
    split; [|done]. unfold futures. apply list_elem_of_fmap. eauto. }
  exists failed, cause. rewrite Hperm in Hf.
  apply list_elem_of_fmap in Hf as (p & [= Hc ->] & Hp). eauto.
Qed.

Lemma dict_get_set key v items :
  dict_get key (dict_set key v items) = Some v.
Proof.
  induction items as [|[k v0] items IH]; simpl.
  - by rewrite String.eqb_refl.
  - destruct (String.eqb k key) eqn:E; simpl; by rewrite E.
Qed.

Lemma getitem_VDict obj key v :
  getitem obj key = Ok v → ∃ items, obj = VDict items.
Proof. destruct obj; try done. eauto. Qed.

Lemma output_dependencies_updated w w' items deps_latest :
  output_dependencies
    (Ok (length (heap w)),
     set_heap (heap w ++ [updated format_other items deps_latest]) w') =
  Some (VList (map VStr (sorted (map (__str__ format_other) deps_latest)))).
Proof.
  unfold output_dependencies. simpl.
  rewrite list_lookup_middle by done. unfold updated.
  apply dict_get_set.
Qed.

(** A run in which every stage goes through. *)
Lemma update_manifest_deps_Ok
    sched manifest max_workers w obj dependencies elems deps_orig deps_latest :
  heap w !! manifest = Some obj →
  getitem obj "dependencies" = Ok dependencies →
  iter dependencies = Ok elems →
  comprehension from_str elems = Ok deps_orig →
  0 < max_workers →
  comprehension (fetch network) deps_orig = Ok deps_latest →
  let run := update_manifest_deps format_other network sched manifest max_workers w in
  fst run = Ok (length (heap w)) ∧
  output_dependencies run =
    Some (VList (map VStr (sorted (map (__str__ format_other) deps_latest)))).
Proof.
  intros Hw Hget Hiter Hparse Hmw Hfetch run. unfold run.
  rewrite (update_manifest_deps_run _ _ _ _ _ Hw). simpl.
  rewrite Hget, Hiter, Hparse.
  destruct (Z.leb_spec max_workers 0) as [?|_]; [lia|].
  destruct (gather_as_completed_Ok sched _ _ Hfetch) as (gathered & -> & Hperm).
  destruct (getitem_VDict _ _ _ Hget) as [items ->].
  split; [done|]. rewrite output_dependencies_updated.
  do 3 f_equal. apply sorted_Permutation_eq. by rewrite Hperm.
Qed.

(** A run in which some lookup raises. *)
Lemma update_manifest_deps_Raise
    sched manifest max_workers w obj dependencies elems deps_orig pkg :
  heap w !! manifest = Some obj →
  getitem obj "dependencies" = Ok dependencies →
  iter dependencies = Ok elems →
  comprehension from_str elems = Ok deps_orig →
  0 < max_workers →
  pkg ∈ deps_orig → is_ok (fetch network pkg) = false →
  ∃ failed cause,
    failed ∈ deps_orig ∧ fetch network failed = Raise cause ∧
    fst (update_manifest_deps format_other network sched manifest max_workers w) =
      Raise (ValueError_latest failed cause).
Proof.
  intros Hw Hget Hiter Hparse Hmw Hin Hpkg.
  rewrite (update_manifest_deps_run _ _ _ _ _ Hw). simpl.
  rewrite Hget, Hiter, Hparse.
  destruct (Z.leb_spec max_workers 0) as [?|_]; [lia|].
  destruct (gather_as_completed_Raise sched _ _ Hin Hpkg)
    as (failed & cause & Hf & Hc & ->).
  by exists failed, cause.
Qed.

(** A run that returns went through every stage. *)
Lemma update_manifest_deps_Ok_inv sched manifest max_workers w copy :
  fst (update_manifest_deps format_other network sched manifest max_workers w) =
    Ok copy →
  ∃ obj dependencies elems deps_orig deps_latest,
    heap w !! manifest = Some obj ∧
    getitem obj "dependencies" = Ok dependencies ∧
    iter dependencies = Ok elems ∧
    comprehension from_str elems = Ok deps_orig ∧
    0 < max_workers ∧
    comprehension (fetch network) deps_orig = Ok deps_latest.
Proof.
  destruct (heap w !! manifest) as [obj|] eqn:Hw.
  2: { by rewrite update_manifest_deps_dangling. }
  rewrite (update_manifest_deps_run _ _ _ _ _ Hw). simpl.
  destruct (getitem obj "dependencies") as [dependencies|] eqn:Hget; [|done].
  destruct (iter dependencies) as [elems|] eqn:Hiter; [|done].
  destruct (comprehension from_str elems) as [deps_orig|] eqn:Hparse; [|done].
  destruct (Z.leb_spec max_workers 0) as [?|Hmw]; [done|].
  destruct (fetch_all deps_orig) as [[deps_latest Hfetch]|(pkg & Hin & Hpkg)].
  - intros _. by exists obj, dependencies, elems, deps_orig, deps_latest.
  - destruct (gather_as_completed_Raise sched _ _ Hin Hpkg)
      as (failed & cause & _ & _ & ->). done.
Qed.

(** The heap after a run: what was there, and perhaps one more object. *)
Lemma update_manifest_deps_heap sched manifest max_workers w :
  let run := update_manifest_deps format_other network sched manifest max_workers w in
  heap (snd run) = heap w ∨ ∃ obj, heap (snd run) = heap w ++ [obj].
Proof.
  simpl. destruct (heap w !! manifest) as [obj|] eqn:Hw.
  2: { rewrite update_manifest_deps_dangling by done. by left. }
  right. rewrite (update_manifest_deps_run _ _ _ _ _ Hw). simpl.
  repeat (case_match; simpl; eauto).
Qed.

(** The requests of a run: none, or one for each package, each with the
    default timeout. *)
Lemma update_manifest_deps_net_log sched manifest max_workers w :
  let run := update_manifest_deps format_other network sched manifest max_workers w in
  net_log (snd run) = net_log w ∨
  ∃ deps_orig, net_log (snd run) = net_log w ++ map request_of deps_orig.
Proof.
  simpl. destruct (heap w !! manifest) as [obj|] eqn:Hw.
  2: { rewrite update_manifest_deps_dangling by done. by left. }
  rewrite (update_manifest_deps_run _ _ _ _ _ Hw). simpl.
  repeat (case_match; simpl; eauto).
Qed.

Lemma update_manifest_deps_files sched manifest max_workers w :
  files (snd (update_manifest_deps format_other network sched manifest max_workers w)) =
  files w.
Proof.
  destruct (heap w !! manifest) as [obj|] eqn:Hw.
  2: { by rewrite update_manifest_deps_dangling. }
  rewrite (update_manifest_deps_run _ _ _ _ _ Hw). simpl.
  repeat (case_match; simpl; eauto).
Qed.

(** C1: when every dependency parses and every lookup returns, the run
    returns a manifest whose [dependencies] are the updated packages,
    written as strings, in ascending lexicographic order; the list is the
    same for every order in which the lookups complete. *)
Theorem update_manifest_deps_sorted
    manifest max_workers w obj dependencies elems deps_orig deps_latest :
  heap w !! manifest = Some obj →
  getitem obj "dependencies" = Ok dependencies →
  iter dependencies = Ok elems →
  comprehension from_str elems = Ok deps_orig →
  0 < max_workers →
  comprehension (fetch network) deps_orig = Ok deps_latest →
  ∃ out,
    (∀ sched,
       output_dependencies
         (update_manifest_deps format_other network sched manifest max_workers w) =
       Some (VList (map VStr out))) ∧
    out = sorted (map (__str__ format_other) deps_latest) ∧
    Sorted String.le out ∧
    out ≡ₚ map (__str__ format_other) deps_latest.
Proof.
  intros Hw Hget Hiter Hparse Hmw Hfetch.
  exists (sorted (map (__str__ format_other) deps_latest)).
  split; [|split; [done|split; [apply sorted_Sorted|apply sorted_Permutation]]].
  intros sched.
  by destruct (update_manifest_deps_Ok sched _ _ _ _ _ _ _ _
                 Hw Hget Hiter Hparse Hmw Hfetch) as [_ ->].
Qed.

(** C5: whatever the run does, every object of the caller is left as it
    was, the manifest passed in among them; a manifest that is returned is a
    new object. *)
Theorem update_manifest_deps_frame sched manifest max_workers w :
  let run := update_manifest_deps format_other network sched manifest max_workers w in
  heap (snd run) !! manifest = heap w !! manifest ∧
  (∀ l v, heap w !! l = Some v → heap (snd run) !! l = Some v) ∧
  (∀ copy, fst run = Ok copy → copy ≠ manifest ∧ heap w !! copy = None).
Proof.
  intros run.
  assert (∀ l v, heap w !! l = Some v → heap (snd run) !! l = Some v) as Hframe.
  { intros l v Hl. unfold run.
    destruct (update_manifest_deps_heap sched manifest max_workers w)
      as [->|[obj ->]]; [done|].
    by apply lookup_app_l_Some. }
  assert (∀ copy, fst run = Ok copy → heap w !! copy = None) as Hfresh.
  { intros copy Hrun. unfold run in Hrun.
    pose proof Hrun as Hinv.
    apply update_manifest_deps_Ok_inv in Hinv
      as (obj & ds & elems & deps_orig & deps_latest & Hw & Hget & Hiter & Hparse & Hmw & Hfetch).
    destruct (update_manifest_deps_Ok sched _ _ _ _ _ _ _ _
                Hw Hget Hiter Hparse Hmw Hfetch) as [Hcopy _].
    rewrite Hrun in Hcopy. injection Hcopy as ->.
    by apply lookup_ge_None. }
  split; [|split; [done|]].
  - destruct (heap w !! manifest) as [obj|] eqn:Hw; [by apply Hframe|].
    unfold run. by rewrite update_manifest_deps_dangling.
  - intros copy Hrun. split; [|by apply Hfresh].
    intros ->. unfold run in Hrun. pose proof (Hfresh _ Hrun) as Hnone.
    apply update_manifest_deps_Ok_inv in Hrun as (obj & _ & _ & _ & _ & Hw & _).
    congruence.
Qed.

(** C7: when some entry of [dependencies] is a string that does not split
    into three parts, the run raises and sends no request. *)
Theorem update_manifest_deps_malformed
    sched manifest max_workers w obj dependencies elems s :
  heap w !! manifest = Some obj →
  getitem obj "dependencies" = Ok dependencies →
  iter dependencies = Ok elems →
  VStr s ∈ elems →
  length (split dash s) ≠ 3%nat →
  let run := update_manifest_deps format_other network sched manifest max_workers w in
  (∃ e, fst run = Raise e) ∧ net_log (snd run) = net_log w.
Proof.
  intros Hw Hget Hiter Hin Hs run. unfold run.
  rewrite (update_manifest_deps_run _ _ _ _ _ Hw). simpl.
  rewrite Hget, Hiter.
  assert (is_ok (comprehension from_str elems) = false) as Hfail.
  { apply (comprehension_Raise _ _ _ Hin).
    destruct (from_str (VStr s)) as [p|] eqn:E; [|done].
    apply from_str_Ok in E as (a & b & c & E & _). by rewrite E in Hs. }
  destruct (comprehension from_str elems) as [|e]; [done|].
  split; [by exists e|done].
Qed.

(** C8: a lookup sends exactly one request, with an explicit timeout: the
    one the caller gave, or the default of ten seconds; and every request
    of a run of [update_manifest_deps] carries the default timeout. *)
Theorem get_latest_timeout :
  (∀ self timeout w,
     net_log (snd (get_latest network self timeout w)) =
     net_log w ++
       [mkRequest (package_url self) (Some (default _TIMEOUT timeout))]) ∧
  (∀ sched manifest max_workers w,
     ∃ sent,
       net_log (snd (update_manifest_deps format_other network sched manifest
                       max_workers w)) = net_log w ++ sent ∧
       Forall (λ req, req_timeout req = Some _TIMEOUT) sent).
Proof.
  split.
  - intros self timeout w. by rewrite get_latest_run.
  - intros sched manifest max_workers w.
    destruct (update_manifest_deps_net_log sched manifest max_workers w)
      as [->|[deps_orig ->]].
    + exists []. by rewrite app_nil_r.
    + exists (map request_of deps_orig). split; [done|].
      apply Forall_fmap, Forall_true. done.
Qed.

(** What a run writes into the manifest is decided by the manifest and the
    registry's answers. *)
Lemma update_manifest_deps_output sched manifest max_workers w obj d :
  heap w !! manifest = Some obj →
  output_dependencies
    (update_manifest_deps format_other network sched manifest max_workers w) =
    Some d →
  ∃ dependencies elems deps_orig deps_latest,
    getitem obj "dependencies" = Ok dependencies ∧
    iter dependencies = Ok elems ∧
    comprehension from_str elems = Ok deps_orig ∧
    comprehension (fetch network) deps_orig = Ok deps_latest ∧
    0 < max_workers ∧
    d = VList (map VStr (sorted (map (__str__ format_other) deps_latest))).
Proof.
  intros Hw Hout.
  destruct (fst (update_manifest_deps format_other network sched manifest
                   max_workers w)) as [copy|e] eqn:Hrun.
  2: { unfold output_dependencies in Hout. by rewrite Hrun in Hout. }
  apply update_manifest_deps_Ok_inv in Hrun
    as (obj' & ds & elems & deps_orig & deps_latest & Hw' & Hget & Hiter & Hparse & Hmw & Hfetch).
  assert (obj' = obj) as -> by congruence.
  destruct (update_manifest_deps_Ok sched _ _ _ _ _ _ _ _
              Hw Hget Hiter Hparse Hmw Hfetch) as [_ Hout'].
  exists ds, elems, deps_orig, deps_latest.
  repeat split; try done. congruence.
Qed.

(** C9: two runs on the same manifest, against the same answers of the
    registry, write the same [dependencies], whatever the orders of
    completion and the numbers of workers; and with workers in both pools,
    either both runs return or both raise. *)
Theorem update_manifest_deps_deterministic
    sched1 sched2 max_workers1 max_workers2 manifest1 manifest2 w1 w2 obj :
  heap w1 !! manifest1 = Some obj →
  heap w2 !! manifest2 = Some obj →
  let run1 :=
    update_manifest_deps format_other network sched1 manifest1 max_workers1 w1 in
  let run2 :=
    update_manifest_deps format_other network sched2 manifest2 max_workers2 w2 in
  (∀ d1 d2,
     output_dependencies run1 = Some d1 → output_dependencies run2 = Some d2 →
     d1 = d2) ∧
  (0 < max_workers1 → 0 < max_workers2 →
   output_dependencies run1 = output_dependencies run2 ∧
   is_ok (fst run1) = is_ok (fst run2)).
Proof.
  intros Hw1 Hw2 run1 run2.
  assert (∀ sched manifest max_workers w sched' manifest' max_workers' w' copy,
    heap w !! manifest = Some obj → heap w' !! manifest' = Some obj →
    0 < max_workers' →
    fst (update_manifest_deps format_other network sched manifest max_workers w) =
      Ok copy →
    is_ok (fst (update_manifest_deps format_other network sched' manifest'
                  max_workers' w')) = true ∧
    output_dependencies
      (update_manifest_deps format_other network sched manifest max_workers w) =
    output_dependencies
      (update_manifest_deps format_other network sched' manifest' max_workers' w'))
    as Hsame.
  { intros sched manifest max_workers w sched' manifest' max_workers' w' copy
      Hw Hw' Hmw' Hrun.
    apply update_manifest_deps_Ok_inv in Hrun
      as (obj' & ds & elems & deps_orig & deps_latest & Hwo & Hget & Hiter & Hparse & Hmw & Hfetch).
    assert (obj' = obj) as -> by congruence.
    destruct (update_manifest_deps_Ok sched _ _ _ _ _ _ _ _
                Hw Hget Hiter Hparse Hmw Hfetch) as [_ ->].
    destruct (update_manifest_deps_Ok sched' _ _ _ _ _ _ _ _
                Hw' Hget Hiter Hparse Hmw' Hfetch) as [-> ->].
    done. }
  split.
  - intros d1 d2 H1 H2.
    apply (update_manifest_deps_output _ _ _ _ _ _ Hw1) in H1
      as (ds & elems & deps_orig & deps_latest & Hget & Hiter & Hparse & Hfetch & _ & ->).
    apply (update_manifest_deps_output _ _ _ _ _ _ Hw2) in H2
      as (ds' & elems' & deps_orig' & deps_latest' & Hget' & Hiter' & Hparse' & Hfetch' & _ & ->).
    congruence.
  - intros Hmw1 Hmw2. unfold run1, run2. clear run1 run2.
    destruct (fst (update_manifest_deps format_other network sched1 manifest1
                     max_workers1 w1)) as [copy1|e1] eqn:Hrun1.
    { destruct (Hsame _ _ _ _ sched2 manifest2 max_workers2 w2 _ Hw1 Hw2 Hmw2 Hrun1)
        as [Hok Hout].
      split; [exact Hout|]. by rewrite Hok. }
    destruct (fst (update_manifest_deps format_other network sched2 manifest2
                     max_workers2 w2)) as [copy2|e2] eqn:Hrun2.
    { destruct (Hsame _ _ _ _ sched1 manifest1 max_workers1 w1 _ Hw2 Hw1 Hmw1 Hrun2)
        as [Hok _].
      by rewrite Hrun1 in Hok. }
    split; [|done]. unfold output_dependencies. by rewrite Hrun1, Hrun2.
Qed.


(** ** Runs of [main] *)

Section Main.

Variable json_loads : string → option value.
Variable json_dumps : value → string.
Variable writable : string → write_result.

Local Abbreviation run_main :=
  (main format_other network json_loads json_dumps writable).

(** [main] writes last: a run that raises has written nothing, unless
    what raised is the write itself, after the output was opened; then the
    output holds the start of the text that the same run leaves there when
    the write goes through. *)
Lemma main_Raise_files sched args w e :
  fst (run_main sched args w) = Raise e →
  files (snd (run_main sched args w)) = files w ∨
  (e = OSError (args_output args) ∧
   ∃ written text,
     writable (args_output args) = Failed written ∧
     fst (main format_other network json_loads json_dumps always_written
            sched args w) = Ok tt ∧
     files (snd (main format_other network json_loads json_dumps
                   always_written sched args w)) =
       <[args_output args:=text]> (files w) ∧
     files (snd (run_main sched args w)) =
       <[args_output args:=String.substring 0 written text]> (files w)).
Proof.
  unfold main. rewrite !bind_run. unfold read_text.
  destruct (files w !! args_input args) as [text|]; [|by left].
  rewrite !bind_run. unfold loads.
  destruct (json_loads text) as [obj|]; [|by left].
  unfold alloc. rewrite !bind_run.
  pose proof (update_manifest_deps_files sched (length (heap w))
                (args_max_workers args) (set_heap (heap w ++ [obj]) w)) as Hfiles.
  destruct (update_manifest_deps _ _ _ _ _ _) as [[copy|e'] w2]; [|by left].
  simpl in Hfiles. rewrite !bind_run. unfold load.
  destruct (heap w2 !! copy) as [updated_obj|]; [|by left].
  unfold write_text, always_written.
  destruct (writable (args_output args)) as [| |written] eqn:Hwr;
    [done|by left|].
  simpl. intros [= <-]. right. split; [done|].
  exists written, (json_dumps updated_obj). by rewrite Hfiles.
Qed.

(** C2: when the dependencies parse, the pool has workers and some lookup
    raises, [update_manifest_deps] raises an error that names a package
    whose lookup raised, with the cause; [main] raises that error and
    leaves every file as it was. *)
Theorem update_manifest_deps_fail_fast
    sched args w text obj dependencies elems deps_orig pkg :
  files w !! args_input args = Some text →
  json_loads text = Some obj →
  getitem obj "dependencies" = Ok dependencies →
  iter dependencies = Ok elems →
  comprehension from_str elems = Ok deps_orig →
  0 < args_max_workers args →
  pkg ∈ deps_orig → is_ok (fetch network pkg) = false →
  ∃ failed cause,
    failed ∈ deps_orig ∧ fetch network failed = Raise cause ∧
    (∀ w' manifest,
       heap w' !! manifest = Some obj →
       fst (update_manifest_deps format_other network sched manifest
              (args_max_workers args) w') =
       Raise (ValueError_latest failed cause)) ∧
    fst (run_main sched args w) = Raise (ValueError_latest failed cause) ∧
    files (snd (run_main sched args w)) = files w.
Proof.
  intros Hfile Hloads Hget Hiter Hparse Hmw Hin Hpkg.
  destruct (gather_as_completed_Raise sched _ _ Hin Hpkg)
    as (failed & cause & Hf & Hc & Hg).
  assert (∀ w' manifest,
    heap w' !! manifest = Some obj →
    fst (update_manifest_deps format_other network sched manifest
           (args_max_workers args) w') =
    Raise (ValueError_latest failed cause)) as Hupdate.
  { intros w' manifest Hw'.
    rewrite (update_manifest_deps_run _ _ _ _ _ Hw'). simpl.
    rewrite Hget, Hiter, Hparse.
    destruct (Z.leb_spec (args_max_workers args) 0) as [?|_]; [lia|].
    by rewrite Hg. }
  assert (fst (run_main sched args w) = Raise (ValueError_latest failed cause))
    as Hmain.
  { unfold main. rewrite !bind_run. unfold read_text.
    rewrite Hfile, !bind_run. unfold loads. rewrite Hloads.
    unfold alloc. rewrite !bind_run.
    specialize (Hupdate (set_heap (heap w ++ [obj]) w) (length (heap w))).
    destruct (update_manifest_deps _ _ _ _ _ _) as [r w2].
    simpl in Hupdate. rewrite Hupdate; [done|].
    by apply list_lookup_middle. }
  exists failed, cause. repeat split; try done.
  destruct (main_Raise_files _ _ _ _ Hmain) as [H|[H _]]; [done|discriminate H].
Qed.

End Main.

(** ** What a lookup returns and raises *)

(** The outcome of a lookup, read off the registry's answer. *)
Lemma get_latest_outcome self timeout w :
  fst (get_latest network self timeout w) =
  if valid_timeout (Some (default _TIMEOUT timeout)) then
  match network (mkRequest (package_url self) (Some (default _TIMEOUT timeout))) with
  | NetworkFailure kind => Raise (RequestException kind)
  | HTTPResponse status url' body =>
      if (400 <=? status) && (status <? 600)
      then Raise (HTTPError status url')
      else match body with
           | None => Raise JSONDecodeError
           | Some b =>
               match getitem b "latest" with
               | Raise e => Raise e
               | Ok latest =>
                   match getitem latest "version_number" with
                   | Raise e => Raise e
                   | Ok version_number =>
                       Ok (mkPackage (namespace self) (name self) version_number)
                   end
               end
           end
  end
  else Raise ValueError_timeout.
Proof.
  unfold get_latest. rewrite !bind_run. unfold requests_get.
  destruct (valid_timeout _); [|done].
  destruct (network _) as [kind|status url' body]; [done|].
  rewrite !bind_run. unfold lift, raise_for_status. simpl.
  destruct ((400 <=? status) && (status <? 600)); [done|].
  rewrite !bind_run. unfold json. simpl.
  destruct body as [b|]; [|done].
  rewrite !bind_run.
  destruct (getitem b "latest") as [latest|]; [|done].
  rewrite !bind_run.
  by destruct (getitem latest "version_number").
Qed.

(** The same for the lookups of a run, which leave the timeout at its
    default. *)
Lemma fetch_outcome pkg :
  fetch network pkg =
  match network (request_of pkg) with
  | NetworkFailure kind => Raise (RequestException kind)
  | HTTPResponse status url' body =>
      if (400 <=? status) && (status <? 600)
      then Raise (HTTPError status url')
      else match body with
           | None => Raise JSONDecodeError
           | Some b =>
               match getitem b "latest" with
               | Raise e => Raise e
               | Ok latest =>
                   match getitem latest "version_number" with
                   | Raise e => Raise e
                   | Ok version_number =>
                       Ok (mkPackage (namespace pkg) (name pkg) version_number)
                   end
               end
           end
  end.
Proof. unfold fetch. by rewrite get_latest_outcome. Qed.

Lemma getitem_Raise obj key e :
  getitem obj key = Raise e → e = KeyError key ∨ e = TypeError.
Proof.
  destruct obj; simpl; try (intros [= <-]; by right).
  destruct (dict_get key items); [done|]. intros [= <-]. by left.
Qed.

(** C6, as the code has it: with a timeout that [requests] takes, as the
    default is, a lookup returns the package with the same namespace and
    name and with the [version_number] of the answer's [latest] as its
    version exactly when the answer has a status outside 400..599 and a
    body holding that field.  It raises the error of [requests] when there
    is no answer, [HTTPError] with the status and the URL of the response
    on a status in 400..599, the decoding error when the body is not JSON,
    and [KeyError] for the key or [TypeError] when the body lacks the
    field.  What it raises is that cause and never the [ValueError] that
    names the package, which [update_manifest_deps] makes of it.  A timeout
    of zero or less is refused with a [ValueError]. *)
Theorem get_latest_spec self timeout w :
  let req := mkRequest (package_url self) (Some (default _TIMEOUT timeout)) in
  let r := fst (get_latest network self timeout w) in
  (timeout = None → valid_timeout (req_timeout req) = true) ∧
  (valid_timeout (req_timeout req) = false → r = Raise ValueError_timeout) ∧
  (valid_timeout (req_timeout req) = true →
   (∀ pkg,
      r = Ok pkg ↔
      ∃ status url' body latest version_number,
        network req = HTTPResponse status url' (Some body) ∧
        ¬ (400 ≤ status < 600) ∧
        getitem body "latest" = Ok latest ∧
        getitem latest "version_number" = Ok version_number ∧
        pkg = mkPackage (namespace self) (name self) version_number) ∧
   (∀ kind, network req = NetworkFailure kind → r = Raise (RequestException kind)) ∧
   (∀ status url' body,
      network req = HTTPResponse status url' body → 400 ≤ status < 600 →
      r = Raise (HTTPError status url')) ∧
   (∀ status url',
      network req = HTTPResponse status url' None → ¬ (400 ≤ status < 600) →
      r = Raise JSONDecodeError) ∧
   (∀ status url' body,
      network req = HTTPResponse status url' (Some body) →
      ¬ (400 ≤ status < 600) →
      (∀ latest, getitem body "latest" = Ok latest →
                 is_ok (getitem latest "version_number") = false) →
      r = Raise (KeyError "latest") ∨ r = Raise (KeyError "version_number") ∨
      r = Raise TypeError)) ∧
  (∀ e, r = Raise e → ∀ pkg cause, e ≠ ValueError_latest pkg cause).
Proof.
  intros req r. unfold r. rewrite get_latest_outcome.
  change (Some (default _TIMEOUT timeout)) with (req_timeout req).
  change (mkRequest (package_url self) (req_timeout req)) with req.
  assert (∀ status, (400 <=? status) && (status <? 600) = true ↔ 400 ≤ status < 600)
    as Hstatus by (intros; lia).
  split; [by intros ->|]. split; [by intros ->|]. split.
  - intros ->.
    split; [intros pkg; split|split; [|split; [|split]]].
    + destruct (network req) as [kind|status url' body]; [done|].
      destruct ((400 <=? status) && (status <? 600)) eqn:E; [done|].
      destruct body as [b|]; [|done].
      destruct (getitem b "latest") as [latest|] eqn:Hl; [|done].
      destruct (getitem latest "version_number") as [v|] eqn:Hv; [|done].
      intros [= <-]. exists status, url', b, latest, v.
      split; [done|]. split; [|done].
      intros Hs%Hstatus. congruence.
    + intros (status & url' & body & latest & v & -> & Hs & -> & -> & ->).
      destruct ((400 <=? status) && (status <? 600)) eqn:E; [|done].
      by apply Hstatus in E.
    + by intros kind ->.
    + intros status url' body -> Hs%Hstatus. by rewrite Hs.
    + intros status url' -> Hs.
      destruct ((400 <=? status) && (status <? 600)) eqn:E; [|done].
      by apply Hstatus in E.
    + intros status url' body -> Hs Hbad.
      destruct ((400 <=? status) && (status <? 600)) eqn:E.
      { by apply Hstatus in E. }
      destruct (getitem body "latest") as [latest|e] eqn:Hl.
      * specialize (Hbad latest eq_refl).
        destruct (getitem latest "version_number") as [|e] eqn:Hv; [done|].
        apply getitem_Raise in Hv as [->| ->]; auto.
      * apply getitem_Raise in Hl as [->| ->]; auto.
  - intros e He pkg cause ->.
    destruct (valid_timeout (req_timeout req)); [|done].
    destruct (network req) as [kind|status url' body]; [done|].
    destruct ((400 <=? status) && (status <? 600)); [done|].
    destruct body as [b|]; [|done].
    destruct (getitem b "latest") as [latest|e] eqn:Hl.
    + destruct (getitem latest "version_number") as [|e] eqn:Hv; [done|].
      injection He as ->. by apply getitem_Raise in Hv as [|].
    + injection He as ->. by apply getitem_Raise in Hl as [|].
Qed.

End Run.

(** X23: the [get_latest] of [update_deps.py] and of [update_pkg_deps.py]
    send their one request without a timeout. *)
Lemma earlier_revisions_no_timeout network self w :
  net_log (snd (update_deps.get_latest network self w)) =
    net_log w ++ [mkRequest (package_url self) None] ∧
  net_log (snd (update_pkg_deps.get_latest network self w)) =
    net_log w ++ [mkRequest (package_url self) None].
Proof.
  unfold update_deps.get_latest, update_pkg_deps.get_latest.
  rewrite !bind_run. unfold requests_get. cbn [valid_timeout].
  destruct (network _) as [kind|status url' body]; [done|].
  rewrite !bind_run. unfold lift.
  split.
  - destruct (json _) as [b|]; [|done]. rewrite !bind_run.
    destruct (getitem b _) as [latest|]; [|done]. rewrite !bind_run.
    by destruct (getitem latest _).
  - destruct (raise_for_status _); [|done]. rewrite !bind_run.
    destruct (json _) as [b|]; [|done]. rewrite !bind_run.
    destruct (getitem b _) as [latest|]; [|done]. rewrite !bind_run.
    by destruct (getitem latest _).
Qed.

(** ** The model on the scenario of the specification *)

Lemma update_manifest_deps_sorted_witness :
  ∃ out,
    (∀ sched,
       output_dependencies
         (update_manifest_deps scenario_format scenario_network sched 0%nat 5
            (mkWorld [scenario_manifest] [] ∅)) =
       Some (VList (map VStr out))) ∧
    out = sorted ["acme-widget-1.2.0"; "acme-gadget-2.1.0"] ∧
    Sorted String.le out ∧
    out ≡ₚ ["acme-widget-1.2.0"; "acme-gadget-2.1.0"].
Proof.
  apply (update_manifest_deps_sorted scenario_format scenario_network
           0%nat 5 (mkWorld [scenario_manifest] [] ∅) scenario_manifest
           (VList [VStr "acme-widget-1.0.0"; VStr "acme-gadget-2.1.0"])
           [VStr "acme-widget-1.0.0"; VStr "acme-gadget-2.1.0"]
           [widget; gadget]
           [mkPackage "acme" "widget" (VStr "1.2.0"); gadget]);
    solve [reflexivity | lia].
Defined.

Lemma update_manifest_deps_fail_fast_witness :
  ∃ failed cause,
    failed ∈ [widget; missing] ∧
    fetch scenario_network failed = Raise cause ∧
    (∀ w' manifest,
       heap w' !! manifest = Some unknown_manifest →
       fst (update_manifest_deps scenario_format scenario_network [] manifest 5 w') =
       Raise (ValueError_latest failed cause)) ∧
    fst (main scenario_format scenario_network scenario_loads scenario_dumps
           (λ _, Written) [] (mkNamespace "manifest.json" "out.json" 5 false)
           scenario_world) =
      Raise (ValueError_latest failed cause) ∧
    files (snd (main scenario_format scenario_network scenario_loads scenario_dumps
                  (λ _, Written) [] (mkNamespace "manifest.json" "out.json" 5 false)
                  scenario_world)) =
      files scenario_world.
Proof.
  apply (update_manifest_deps_fail_fast scenario_format scenario_network
           scenario_loads scenario_dumps (λ _, Written) []
           (mkNamespace "manifest.json" "out.json" 5 false) scenario_world
           "unknown" unknown_manifest
           (VList [VStr "acme-widget-1.0.0"; VStr "acme-missing-0.1.0"])
           [VStr "acme-widget-1.0.0"; VStr "acme-missing-0.1.0"]
           [widget; missing] missing);
    try solve [reflexivity | simpl; lia].
  right. left.
Defined.

Lemma update_manifest_deps_malformed_witness :
  let run :=
    update_manifest_deps scenario_format scenario_network [] 0%nat 5
      (mkWorld [malformed_manifest] [] ∅) in
  (∃ e, fst run = Raise e) ∧ net_log (snd run) = [].
Proof.
  apply (update_manifest_deps_malformed scenario_format scenario_network
           [] 0%nat 5 (mkWorld [malformed_manifest] [] ∅) malformed_manifest
           (VList [VStr "acme-widget-1.0.0"; VStr "a-b"])
           [VStr "acme-widget-1.0.0"; VStr "a-b"] "a-b");
    try solve [reflexivity | simpl; lia].
  right. left.
Defined.

Lemma update_manifest_deps_deterministic_witness :
  let run1 :=
    update_manifest_deps scenario_format scenario_network [] 0%nat 1
      (mkWorld [scenario_manifest] [] ∅) in
  let run2 :=
    update_manifest_deps scenario_format scenario_network [1%nat] 1%nat 5
      (mkWorld [VNone; scenario_manifest] [] ∅) in
  (∀ d1 d2,
     output_dependencies run1 = Some d1 → output_dependencies run2 = Some d2 →
     d1 = d2) ∧
  (0 < 1 → 0 < 5 →
   output_dependencies run1 = output_dependencies run2 ∧
   is_ok (fst run1) = is_ok (fst run2)).
Proof.
  apply (update_manifest_deps_deterministic scenario_format scenario_network
           [] [1%nat] 1 5 0%nat 1%nat
           (mkWorld [scenario_manifest] [] ∅)
           (mkWorld [VNone; scenario_manifest] [] ∅) scenario_manifest);
    reflexivity.
Defined.


(** C6, as the claim has it, fails: a body without [latest] makes the
    lookup raise [KeyError], which is no error naming the package; an
    answer with status 300 and a body holding the field is returned from;
    and with a timeout of zero the lookup raises [ValueError] whatever the
    registry would answer. *)
Lemma get_latest_raises_the_cause :
  fst (get_latest (answering 200 (Some (VDict []))) widget None empty_world) =
    Raise (KeyError "latest") ∧
  (¬ ∃ cause,
       fst (get_latest (answering 200 (Some (VDict []))) widget None
              empty_world) = Raise (ValueError_latest widget cause)) ∧
  fst (get_latest (answering 300 (scenario_body "1.2.0")) widget None
         empty_world) = Ok (mkPackage "acme" "widget" (VStr "1.2.0")) ∧
  fst (get_latest (answering 200 (scenario_body "1.2.0")) widget
         (Some (QArith_base.inject_Z 0)) empty_world) = Raise ValueError_timeout.
Proof.
  split; [reflexivity|]. split; [|split; reflexivity].
  intros [cause H]. discriminate H.
Qed.

(** The scenario itself: widget is updated to 1.2.0, gadget stays at 2.1.0,
    and gadget comes first in the output although widget was listed first,
    whichever lookup finishes first. *)
Example scenario_end_to_end :
  output_dependencies
    (update_manifest_deps scenario_format scenario_network [0%nat] 0%nat 5
       (mkWorld [scenario_manifest] [] ∅)) =
    Some (VList [VStr "acme-gadget-2.1.0"; VStr "acme-widget-1.2.0"]) ∧
  output_dependencies
    (update_manifest_deps scenario_format scenario_network [1%nat] 0%nat 5
       (mkWorld [scenario_manifest] [] ∅)) =
    Some (VList [VStr "acme-gadget-2.1.0"; VStr "acme-widget-1.2.0"]).
Proof. split; reflexivity. Qed.

(** With an unknown dependency the run raises, naming it, after both
    requests have gone out; without workers there is no pool and no
    request. *)
Example scenario_unknown :
  fst (update_manifest_deps scenario_format scenario_network [] 0%nat 5
         (mkWorld [unknown_manifest] [] ∅)) =
    Raise (ValueError_latest missing
             (HTTPError 404 (_URL_API_EXP +:+ "/package/acme/missing/"))) ∧
  net_log (snd (update_manifest_deps scenario_format scenario_network [] 0%nat 5
                  (mkWorld [unknown_manifest] [] ∅))) =
    [request_of widget; request_of missing] ∧
  update_manifest_deps scenario_format scenario_network [] 0%nat 0
    (mkWorld [scenario_manifest] [] ∅) =
    (Raise ValueError_max_workers,
     mkWorld [scenario_manifest; scenario_manifest] [] ∅).
Proof. repeat split; reflexivity. Qed.

(** * Further properties of the code *)

(** ** Package identifiers *)

Lemma split_parts_no_sep sep s :
  Forall (λ part, count sep part = 0%nat) (split sep s).
Proof.
  induction s as [|c s IH]; simpl; [by repeat constructor|].
  destruct (Ascii.eqb c sep) eqn:E; [by constructor|].
  destruct (split sep s) as [|part parts].
  - constructor; [simpl; by rewrite E|constructor].
  - inv IH. constructor; [|done]. simpl. by rewrite E.
Qed.

Lemma count_app sep a b :
  count sep (a +:+ b) = (count sep a + count sep b)%nat.
Proof. induction a as [|c a IH]; simpl; [done|]. rewrite IH. lia. Qed.

(** What [from_str] returns has no dash in its namespace or its name. *)
Lemma from_str_Ok_no_dash full_name p :
  from_str full_name = Ok p →
  count dash (namespace p) = 0%nat ∧ count dash (name p) = 0%nat.
Proof.
  intros Hp. destruct full_name as [| | | |s| |]; try done.
  apply from_str_Ok in Hp as (a & b & c & Hs & ->).
  pose proof (split_parts_no_sep dash s) as Hparts. rewrite Hs in Hparts.
  apply Forall_cons in Hparts as [Ha Hparts].
  by apply Forall_cons in Hparts as [Hb _].
Qed.

(** X1: [from_str] returns only for a [str]; the package it returns has
    three strings without a dash as its components, and is written back by
    [__str__] as the string that was read. *)
Theorem from_str_components format_other full_name p :
  from_str full_name = Ok p →
  ∃ s version,
    full_name = VStr s ∧
    p = mkPackage (namespace p) (name p) (VStr version) ∧
    count dash (namespace p) = 0%nat ∧
    count dash (name p) = 0%nat ∧
    count dash version = 0%nat ∧
    count dash s = 2%nat ∧
    __str__ format_other p = s.
Proof.
  intros Hp. destruct full_name as [| | | |s| |]; try done.
  pose proof (from_str_str format_other _ _ Hp) as Hstr.
  apply from_str_Ok in Hp as (a & b & c & Hs & ->).
  pose proof (split_parts_no_sep dash s) as Hparts.
  pose proof (split_length dash s) as Hlen.
  rewrite Hs in Hparts, Hlen.
  apply Forall_cons in Hparts as [Ha Hparts].
  apply Forall_cons in Hparts as [Hb Hparts].
  apply Forall_cons in Hparts as [Hc _].
  exists s, c. simpl in *. repeat split; try done. lia.
Qed.

Lemma from_str_components_witness :
  ∃ s version,
    VStr "acme-widget-1.0.0" = VStr s ∧
    widget = mkPackage (namespace widget) (name widget) (VStr version) ∧
    count dash (namespace widget) = 0%nat ∧
    count dash (name widget) = 0%nat ∧
    count dash version = 0%nat ∧
    count dash s = 2%nat ∧
    __str__ scenario_format widget = s.
Proof.
  apply (from_str_components scenario_format (VStr "acme-widget-1.0.0") widget).
  reflexivity.
Defined.

(** X2: a package is read back from what [__str__] writes exactly when its
    version is a string and no component has a dash in it: any dash in a
    component, and any version that is not a string, breaks the round
    trip. *)
Theorem str_from_str_iff format_other p :
  from_str (VStr (__str__ format_other p)) = Ok p ↔
  (∃ ver, version p = VStr ver ∧ count dash ver = 0%nat) ∧
  count dash (namespace p) = 0%nat ∧
  count dash (name p) = 0%nat.
Proof.
  split.
  - intros Hp.
    destruct (from_str_components format_other _ _ Hp)
      as (s & v & _ & Hv & Hns & Hnm & Hver & _).
    split; [|done]. exists v. split; [|done]. by rewrite Hv.
  - intros [(v & Hv & Hver) [Hns Hnm]].
    destruct p as [ns nm ver]. simpl in *. subst ver.
    unfold from_str, __str__. simpl. by rewrite split_three.
Qed.

(** ** Lookups *)

(** A lookup keeps the namespace and the name and depends on nothing else. *)
Lemma fetch_Ok_same network p latest :
  fetch network p = Ok latest →
  namespace latest = namespace p ∧
  name latest = name p ∧
  (∀ q, namespace q = namespace p → name q = name p →
        fetch network q = Ok latest) ∧
  fetch network latest = Ok latest.
Proof.
  intros Hp.
  assert (∀ q, namespace q = namespace p → name q = name p →
               fetch network q = Ok latest) as Hsame.
  { intros q Hns Hnm. rewrite <- Hp.
    rewrite !fetch_outcome. unfold request_of, package_url. by rewrite Hns, Hnm. }
  assert (namespace latest = namespace p ∧ name latest = name p) as [Hns Hnm].
  { rewrite fetch_outcome in Hp.
    destruct (network _) as [kind|status url' body]; [done|].
    destruct ((400 <=? status) && (status <? 600)); [done|].
    destruct body as [b|]; [|done].
    destruct (getitem b "latest") as [l|]; [|done].
    destruct (getitem l "version_number") as [v|]; [|done].
    by injection Hp as <-. }
  repeat split; try done. by apply Hsame.
Qed.

(** X3: the version a package is at plays no part in its lookup: the
    result keeps the namespace and the name, and every package with that
    namespace and name, the result itself among them, is looked up to the
    same result. *)
Theorem fetch_ignores_version network p latest :
  fetch network p = Ok latest →
  namespace latest = namespace p ∧
  name latest = name p ∧
  (∀ q, namespace q = namespace p → name q = name p →
        fetch network q = Ok latest) ∧
  fetch network latest = Ok latest.
Proof. apply fetch_Ok_same. Qed.

Lemma fetch_ignores_version_witness :
  fetch scenario_network (mkPackage "acme" "widget" (VStr "1.2.0")) =
  Ok (mkPackage "acme" "widget" (VStr "1.2.0")).
Proof.
  apply (fetch_ignores_version scenario_network widget). reflexivity.
Defined.

Lemma app_sep_inj c a a' b b' :
  count c a = 0%nat → count c a' = 0%nat →
  a +:+ String c b = a' +:+ String c b' → a = a' ∧ b = b'.
Proof.
  revert a'. induction a as [|x a IH]; intros [|x' a']; simpl.
  - by intros _ _ [= ->].
  - intros _ Hx' [= <- _]. by rewrite Ascii.eqb_refl in Hx'.
  - intros Hx _ [= -> _]. by rewrite Ascii.eqb_refl in Hx.
  - intros Hx Hx' [= <- H].
    destruct (Ascii.eqb x c); [done|].
    destruct (IH a' Hx Hx' H) as [-> ->]. done.
Qed.

Lemma app_char_inj c a a' :
  a +:+ String c "" = a' +:+ String c "" → a = a'.
Proof.
  revert a'. induction a as [|x a IH]; intros [|x' a']; simpl; try done.
  - intros [= _ H]. by destruct a'.
  - intros [= _ H]. by destruct a.
  - intros [= <- H]. f_equal. by apply IH.
Qed.

(** X4: packages whose namespaces have no slash are looked up at different
    addresses unless they agree in namespace and name.  (A slash in a
    namespace is not escaped: [a/b] with name [c] and [a] with name [b/c]
    share an address.) *)
Theorem package_url_inj p q :
  count slash (namespace p) = 0%nat →
  count slash (namespace q) = 0%nat →
  package_url p = package_url q →
  namespace p = namespace q ∧ name p = name q.
Proof.
  intros Hp Hq Hurl. unfold package_url in Hurl.
  apply (inj (String.app _)) in Hurl.
  apply (inj (String.app _)) in Hurl.
  change (namespace p +:+ String slash (name p +:+ String slash "") =
          namespace q +:+ String slash (name q +:+ String slash "")) in Hurl.
  apply app_sep_inj in Hurl as [Hns Hnm]; [|done..].
  split; [done|]. by apply (app_char_inj slash).
Qed.

Lemma package_url_inj_witness :
  namespace widget = namespace widget ∧ name widget = name widget.
Proof.
  apply (package_url_inj widget widget); reflexivity.
Defined.

Example package_url_collision :
  package_url (mkPackage "a/b" "c" (VStr "1")) =
  package_url (mkPackage "a" "b/c" (VStr "1")).
Proof. reflexivity. Qed.

(** The earlier revisions' lookups, read off the registry's answer. *)
Lemma update_deps_get_latest_run network self w :
  update_deps.get_latest network self w =
  (match network (request_without_timeout self) with
   | NetworkFailure kind => Raise (RequestException kind)
   | HTTPResponse status url' body =>
       match body with
       | None => Raise JSONDecodeError
       | Some b =>
           match getitem b "latest" with
           | Raise e => Raise e
           | Ok latest =>
               match getitem latest "version_number" with
               | Raise e => Raise e
               | Ok version_number =>
                   Ok (mkPackage (namespace self) (name self) version_number)
               end
           end
       end
   end,
   set_net_log (net_log w ++ [request_without_timeout self]) w).
Proof.
  unfold update_deps.get_latest. rewrite !bind_run. unfold requests_get.
  cbn [valid_timeout]. fold (request_without_timeout self).
  destruct (network _) as [kind|status url' body]; [done|].
  rewrite !bind_run. unfold lift, json. simpl.
  destruct body as [b|]; [|done]. rewrite !bind_run.
  destruct (getitem b "latest") as [latest|]; [|done]. rewrite !bind_run.
  by destruct (getitem latest "version_number").
Qed.

Lemma update_pkg_deps_get_latest_run network self w :
  update_pkg_deps.get_latest network self w =
  (match network (request_without_timeout self) with
   | NetworkFailure kind => Raise (RequestException kind)
   | HTTPResponse status url' body =>
       if (400 <=? status) && (status <? 600)
       then Raise (HTTPError status url')
       else
       match body with
       | None => Raise JSONDecodeError
       | Some b =>
           match getitem b "latest" with
           | Raise e => Raise e
           | Ok latest =>
               match getitem latest "version_number" with
               | Raise e => Raise e
               | Ok version_number =>
                   Ok (mkPackage (namespace self) (name self) version_number)
               end
           end
       end
   end,
   set_net_log (net_log w ++ [request_without_timeout self]) w).
Proof.
  unfold update_pkg_deps.get_latest. rewrite !bind_run. unfold requests_get.
  cbn [valid_timeout]. fold (request_without_timeout self).
  destruct (network _) as [kind|status url' body]; [done|].
  rewrite !bind_run. unfold lift, raise_for_status. simpl.
  destruct ((400 <=? status) && (status <? 600)); [done|].
  rewrite !bind_run. unfold json. simpl.
  destruct body as [b|]; [|done]. rewrite !bind_run.
  destruct (getitem b "latest") as [latest|]; [|done]. rewrite !bind_run.
  by destruct (getitem latest "version_number").
Qed.

(** X5: [get_latest] of [update_deps.py] never looks at the status: an
    answer whose body holds the field is returned from whatever its status,
    a 404 or a 500 included, where [update_pkg_deps.py] raises
    [HTTPError]. *)
Theorem update_deps_get_latest_ignores_status
    network self w status url' body latest version_number :
  network (request_without_timeout self) = HTTPResponse status url' (Some body) →
  getitem body "latest" = Ok latest →
  getitem latest "version_number" = Ok version_number →
  fst (update_deps.get_latest network self w) =
    Ok (mkPackage (namespace self) (name self) version_number) ∧
  (400 ≤ status < 600 →
   fst (update_pkg_deps.get_latest network self w) =
     Raise (HTTPError status url')).
Proof.
  intros Hnet Hl Hv.
  rewrite update_deps_get_latest_run, update_pkg_deps_get_latest_run. simpl.
  rewrite Hnet, Hl, Hv. split; [done|].
  intros Hs.
  assert ((400 <=? status) && (status <? 600) = true) as -> by lia. done.
Qed.

Lemma update_deps_get_latest_ignores_status_witness :
  fst (update_deps.get_latest (answering 404 (scenario_body "1.2.0"))
         widget empty_world) =
    Ok (mkPackage "acme" "widget" (VStr "1.2.0")) ∧
  (400 ≤ 404 < 600 →
   fst (update_pkg_deps.get_latest (answering 404 (scenario_body "1.2.0"))
          widget empty_world) =
     Raise (HTTPError 404 (package_url widget))).
Proof.
  apply (update_deps_get_latest_ignores_status
           (answering 404 (scenario_body "1.2.0"))
           widget empty_world 404 (package_url widget)
           (VDict [("latest", VDict [("version_number", VStr "1.2.0")])])
           (VDict [("version_number", VStr "1.2.0")]) (VStr "1.2.0"));
    reflexivity.
Defined.

(** ** Edge cases of [update_manifest_deps] *)

Lemma comprehension_app_Raise {A B} (f : A → result B) good bad rest ys e :
  comprehension f good = Ok ys → f bad = Raise e →
  comprehension f (good ++ bad :: rest) = Raise e.
Proof.
  revert ys. induction good as [|x good IH]; intros ys; simpl.
  - intros _ ->. done.
  - destruct (f x); [|done].
    destruct (comprehension f good) as [ys'|]; [|done].
    intros _ Hbad. by rewrite (IH ys').
Qed.

Lemma dict_set_keys key v v0 items :
  dict_get key items = Some v0 →
  map fst (dict_set key v items) = map fst items.
Proof.
  induction items as [|[k x] items IH]; simpl; [done|].
  destruct (String.eqb k key); simpl; [done|].
  intros H. by rewrite IH.
Qed.

Lemma dict_get_set_ne key key' v items :
  key' ≠ key → dict_get key' (dict_set key v items) = dict_get key' items.
Proof.
  intros Hne. induction items as [|[k x] items IH]; simpl.
  - destruct (String.eqb_spec key key'); [congruence|done].
  - destruct (String.eqb_spec k key) as [->|]; simpl.
    + destruct (String.eqb_spec key key'); [congruence|done].
    + by rewrite IH.
Qed.

Section Edges.

Variable format_other : value → string.
Variable network : request → http_outcome.

Local Abbreviation run_update :=
  (update_manifest_deps format_other network).

(** X6: with nothing to iterate over in [dependencies] (an empty list, and
    as well an empty string or an empty dict) and a pool with workers, the
    run returns a copy with an empty list of dependencies and sends no
    request. *)
Theorem update_manifest_deps_empty
    sched manifest max_workers w obj dependencies :
  heap w !! manifest = Some obj →
  getitem obj "dependencies" = Ok dependencies →
  iter dependencies = Ok [] →
  0 < max_workers →
  let run := run_update sched manifest max_workers w in
  fst run = Ok (length (heap w)) ∧
  output_dependencies run = Some (VList []) ∧
  net_log (snd run) = net_log w.
Proof.
  intros Hw Hget Hiter Hmw run. unfold run.
  rewrite (update_manifest_deps_run _ _ _ _ _ _ _ Hw). simpl.
  rewrite Hget, Hiter. simpl.
  destruct (Z.leb_spec max_workers 0) as [?|_]; [lia|].
  destruct (getitem_VDict _ _ _ Hget) as [items ->].
  simpl. split; [done|]. split; [|by rewrite app_nil_r].
  apply (output_dependencies_updated format_other w _ items []).
Qed.

(** X7: a manifest without a [dependencies] entry, a manifest that is no
    dict, and a [dependencies] entry that cannot be iterated over make the
    run raise [KeyError] or [TypeError], with no request sent. *)
Theorem update_manifest_deps_no_dependencies sched manifest max_workers w obj :
  heap w !! manifest = Some obj →
  (∀ dependencies, getitem obj "dependencies" = Ok dependencies →
                   is_ok (iter dependencies) = false) →
  let run := run_update sched manifest max_workers w in
  (fst run = Raise (KeyError "dependencies") ∨ fst run = Raise TypeError) ∧
  net_log (snd run) = net_log w ∧
  files (snd run) = files w.
Proof.
  intros Hw Hbad run. unfold run.
  rewrite (update_manifest_deps_run _ _ _ _ _ _ _ Hw). simpl.
  destruct (getitem obj "dependencies") as [dependencies|e] eqn:Hget.
  - specialize (Hbad dependencies eq_refl).
    destruct dependencies; try done; simpl; auto.
  - apply getitem_Raise in Hget as [-> | ->]; auto.
Qed.

(** X8: without workers ([max_workers] zero or negative) no run returns
    and no run sends a request; when the dependencies parse, the error is
    the pool's [ValueError]. *)
Theorem update_manifest_deps_no_workers sched manifest max_workers w :
  max_workers ≤ 0 →
  let run := run_update sched manifest max_workers w in
  is_ok (fst run) = false ∧
  net_log (snd run) = net_log w ∧
  (∀ obj dependencies elems deps_orig,
     heap w !! manifest = Some obj →
     getitem obj "dependencies" = Ok dependencies →
     iter dependencies = Ok elems →
     comprehension from_str elems = Ok deps_orig →
     fst run = Raise ValueError_max_workers).
Proof.
  intros Hmw run. unfold run.
  destruct (heap w !! manifest) as [obj|] eqn:Hw.
  2: { rewrite update_manifest_deps_dangling by done. done. }
  rewrite (update_manifest_deps_run _ _ _ _ _ _ _ Hw). simpl.
  destruct (Z.leb_spec max_workers 0) as [_|?]; [|lia].
  destruct (getitem obj "dependencies") as [dependencies|] eqn:Hget;
    [destruct (iter dependencies) as [elems|] eqn:Hiter;
      [destruct (comprehension from_str elems) as [deps_orig|] eqn:Hparse|]|];
    simpl; (split; [done|]); (split; [done|]);
    intros obj' dependencies' elems' deps_orig' ? ? ? ?; simplify_eq; congruence.
Qed.

(** X9: the entries are parsed in the order of the list and the first one
    that does not parse decides the error: [AttributeError] for an entry
    that is no string, the [ValueError] naming the entry for a string that
    is no identifier.  No request is sent. *)
Theorem update_manifest_deps_first_bad_entry
    sched manifest max_workers w obj dependencies good pkgs bad rest e :
  heap w !! manifest = Some obj →
  getitem obj "dependencies" = Ok dependencies →
  iter dependencies = Ok (good ++ bad :: rest) →
  comprehension from_str good = Ok pkgs →
  from_str bad = Raise e →
  let run := run_update sched manifest max_workers w in
  fst run = Raise e ∧
  net_log (snd run) = net_log w ∧
  (e = AttributeError "split" ∨
   ∃ s, bad = VStr s ∧
        e = ValueError_parse s (ValueError_unpack (S (count dash s)))).
Proof.
  intros Hw Hget Hiter Hgood Hbad run. unfold run.
  rewrite (update_manifest_deps_run _ _ _ _ _ _ _ Hw). simpl.
  rewrite Hget, Hiter, (comprehension_app_Raise _ _ _ _ _ _ Hgood Hbad).
  repeat split; try done.
  destruct bad as [| | | |s| |]; try (injection Hbad as <-; by left).
  right. exists s. split; [done|].
  apply from_str_Raise in Hbad as [_ ->]. by rewrite split_length.
Qed.


(** X10: the manifest a run returns has the keys of the one passed in, in
    the same order, and under every key but [dependencies] what the one
    passed in has there. *)
Theorem update_manifest_deps_other_keys sched manifest max_workers w copy :
  let run := run_update sched manifest max_workers w in
  fst run = Ok copy →
  ∃ items items',
    heap w !! manifest = Some (VDict items) ∧
    heap (snd run) !! copy = Some (VDict items') ∧
    map fst items' = map fst items ∧
    (∀ key, key ≠ "dependencies" → dict_get key items' = dict_get key items).
Proof.
  intros run Hrun. unfold run in *.
  pose proof Hrun as Hinv.
  apply update_manifest_deps_Ok_inv in Hinv
    as (obj & ds & elems & deps_orig & deps_latest & Hw & Hget & Hiter & Hparse & Hmw & Hfetch).
  destruct (getitem_VDict _ _ _ Hget) as [items ->].
  revert Hrun. rewrite (update_manifest_deps_run _ _ _ _ _ _ _ Hw). simpl.
  simpl in Hget. rewrite Hget, Hiter, Hparse.
  destruct (Z.leb_spec max_workers 0) as [?|_]; [lia|].
  destruct (gather_as_completed_Ok network sched _ _ Hfetch) as (gathered & -> & _).
  simpl. intros [= <-].
  eexists items, _. split; [done|]. split; [by apply list_lookup_middle|].
  destruct (dict_get "dependencies" items) as [v0|] eqn:Hd; [|done].
  split; [by eapply dict_set_keys|].
  intros key Hkey. by apply dict_get_set_ne.
Qed.

(** X11: once the dependencies have parsed and the pool has workers, one
    request goes out for each dependency, equal ones included, each to the
    address of its package and with the default timeout, whether or not
    the lookups return: a lookup that raises stops no other. *)
Theorem update_manifest_deps_requests
    sched manifest max_workers w obj dependencies elems deps_orig :
  heap w !! manifest = Some obj →
  getitem obj "dependencies" = Ok dependencies →
  iter dependencies = Ok elems →
  comprehension from_str elems = Ok deps_orig →
  0 < max_workers →
  ∃ sent,
    net_log (snd (run_update sched manifest max_workers w)) = net_log w ++ sent ∧
    sent ≡ₚ map request_of deps_orig ∧
    length sent = length elems.
Proof.
  intros Hw Hget Hiter Hparse Hmw.
  rewrite (update_manifest_deps_run _ _ _ _ _ _ _ Hw). simpl.
  rewrite Hget, Hiter, Hparse.
  destruct (Z.leb_spec max_workers 0) as [?|_]; [lia|].
  exists (map request_of deps_orig).
  apply comprehension_Forall2, Forall2_length in Hparse.
  rewrite length_map, <- Hparse.
  destruct (gather _ _); [destruct obj|]; done.
Qed.

Lemma gather_first_Raise before cause pkg after deps_latest :
  Forall (λ fp : Future * Package, is_ok (fst fp) = true) before →
  gather (before ++ (Raise cause, pkg) :: after) deps_latest =
  Raise (ValueError_latest pkg cause).
Proof.
  intros Hbefore. revert deps_latest.
  induction Hbefore as [|[[latest|] p] before Hok _ IH]; intros deps_latest;
    simpl; [done| |done].
  apply IH.
Qed.

(** X12: when several lookups raise, the error names the package of the
    one that completes first: if the futures that complete before a future
    that raised have all returned, the run raises the [ValueError] naming
    the package of that future, with what it raised as the cause. *)
Theorem update_manifest_deps_first_failure_named
    sched manifest max_workers w obj dependencies elems deps_orig
    before cause pkg after :
  heap w !! manifest = Some obj →
  getitem obj "dependencies" = Ok dependencies →
  iter dependencies = Ok elems →
  comprehension from_str elems = Ok deps_orig →
  0 < max_workers →
  as_completed sched (futures network deps_orig) =
    before ++ (Raise cause, pkg) :: after →
  Forall (λ fp, is_ok (fst fp) = true) before →
  fst (run_update sched manifest max_workers w) =
    Raise (ValueError_latest pkg cause) ∧
  pkg ∈ deps_orig ∧
  fetch network pkg = Raise cause.
Proof.
  intros Hw Hget Hiter Hparse Hmw Hsched Hbefore.
  rewrite (update_manifest_deps_run _ _ _ _ _ _ _ Hw). simpl.
  rewrite Hget, Hiter, Hparse.
  destruct (Z.leb_spec max_workers 0) as [?|_]; [lia|].
  rewrite Hsched, gather_first_Raise by done. split; [done|].
  assert ((Raise cause, pkg) ∈ futures network deps_orig) as Hin.
  { rewrite <- (as_completed_Permutation sched), Hsched.
    apply elem_of_app. right. left. }
  apply list_elem_of_fmap in Hin as (p & [= Hc ->] & Hp). by split.
Qed.

(** *** Running on the output of a run *)

(** What a lookup returned is read back from its string when the string
    has two dashes, up to the version, which is read back as a string. *)
Lemma from_str_str_names latest :
  count dash (namespace latest) = 0%nat →
  count dash (name latest) = 0%nat →
  count dash (__str__ format_other latest) = 2%nat →
  ∃ q, from_str (VStr (__str__ format_other latest)) = Ok q ∧
       namespace q = namespace latest ∧ name q = name latest.
Proof.
  intros Hns Hnm Hstr. destruct latest as [ns nm ver]. simpl in *.
  unfold __str__ in *. simpl in *.
  assert (count dash (format format_other ver) = 0%nat) as Hver.
  { rewrite !count_app in Hstr. simpl in Hstr. lia. }
  exists (mkPackage ns nm (VStr (format format_other ver))).
  unfold from_str. by rewrite split_three.
Qed.

Lemma reparse (L : list Package) :
  Forall (λ latest,
            count dash (namespace latest) = 0%nat ∧
            count dash (name latest) = 0%nat ∧
            count dash (__str__ format_other latest) = 2%nat ∧
            fetch network latest = Ok latest) L →
  ∃ Q, comprehension from_str (map VStr (map (__str__ format_other) L)) = Ok Q ∧
       comprehension (fetch network) Q = Ok L.
Proof.
  induction 1 as [|latest L (Hns & Hnm & Hstr & Hfetch) _ (Q & HQ & HL)].
  - by exists [].
  - destruct (from_str_str_names latest Hns Hnm Hstr) as (q & Hq & Hqns & Hqnm).
    exists (q :: Q). cbn [map comprehension]. rewrite Hq, HQ. split; [done|].
    destruct (fetch_Ok_same network latest latest Hfetch) as (_ & _ & Hsame & _).
    by rewrite (Hsame q Hqns Hqnm), HL.
Qed.

(** The packages a run looked up, and what holds of each. *)
Lemma deps_latest_Forall deps elems deps_orig deps_latest :
  iter deps = Ok elems →
  comprehension from_str elems = Ok deps_orig →
  comprehension (fetch network) deps_orig = Ok deps_latest →
  Forall (λ latest,
            count dash (namespace latest) = 0%nat ∧
            count dash (name latest) = 0%nat ∧
            fetch network latest = Ok latest) deps_latest.
Proof.
  intros _ Hparse%comprehension_Forall2 Hfetch%comprehension_Forall2.
  revert elems Hparse.
  induction Hfetch as [|p latest deps_orig deps_latest Hp _ IH];
    intros elems Hparse; [constructor|].
  inversion Hparse as [|elem ? elems' ? Helem Hrest]; subst.
  constructor; [|by eapply IH].
  destruct (from_str_Ok_no_dash _ _ Helem) as [Hns Hnm].
  destruct (fetch_Ok_same network p latest Hp) as (-> & -> & _ & Hl).
  done.
Qed.

Lemma map_VStr_inj l1 l2 : map VStr l1 = map VStr l2 → l1 = l2.
Proof.
  revert l2. induction l1 as [|s l1 IH]; intros [|s' l2]; simpl; try done.
  intros [= -> H]. f_equal. by apply IH.
Qed.

(** X13: a run on what a run wrote writes it again: when every entry of
    the output of a run has exactly two dashes, a run on a manifest with
    that output as its dependencies returns the same dependencies,
    whatever the order of completion and the number of workers. *)
Theorem update_manifest_deps_idempotent
    sched manifest max_workers w out sched' manifest' max_workers' w' obj' :
  output_dependencies (run_update sched manifest max_workers w) =
    Some (VList (map VStr out)) →
  Forall (λ s, count dash s = 2%nat) out →
  heap w' !! manifest' = Some obj' →
  getitem obj' "dependencies" = Ok (VList (map VStr out)) →
  0 < max_workers' →
  output_dependencies (run_update sched' manifest' max_workers' w') =
    Some (VList (map VStr out)).
Proof.
  intros Hout Hdashes Hw' Hget' Hmw'.
  destruct (fst (run_update sched manifest max_workers w)) as [copy|e] eqn:Hrun.
  2: { unfold output_dependencies in Hout. by rewrite Hrun in Hout. }
  apply update_manifest_deps_Ok_inv in Hrun
    as (obj & ds & elems & deps_orig & deps_latest & Hw & Hget & Hiter & Hparse & Hmw & Hfetch).
  destruct (update_manifest_deps_Ok format_other network sched _ _ _ _ _ _ _ _
              Hw Hget Hiter Hparse Hmw Hfetch) as [_ Hout'].
  rewrite Hout in Hout'. injection Hout' as Hout'.
  apply map_VStr_inj in Hout'. subst out.
  pose proof (sorted_Permutation (map (__str__ format_other) deps_latest)) as Hperm.
  apply Permutation_map_inv in Hperm as (L & HL & Hperm).
  pose proof (deps_latest_Forall _ _ _ _ Hiter Hparse Hfetch) as Hall.
  rewrite Hperm in Hall. rewrite HL in Hdashes.
  destruct (reparse L) as (Q & HQ & HfetchQ).
  { apply Forall_forall. intros latest Hin.
    rewrite Forall_forall in Hall. destruct (Hall latest Hin) as (? & ? & ?).
    repeat split; try done.
    rewrite Forall_forall in Hdashes. apply Hdashes.
    apply list_elem_of_fmap. eauto. }
  destruct (update_manifest_deps_Ok format_other network sched' manifest'
              max_workers' w' obj' (VList (map VStr (map (__str__ format_other) L)))
              (map VStr (map (__str__ format_other) L)) Q L)
    as [_ ->]; try done.
  { by rewrite <- HL. }
  rewrite HL. do 3 f_equal.
  symmetry. apply sorted_unique; [|done].
  rewrite <- HL. apply sorted_Sorted.
Qed.

Lemma comprehension_from_str_Raise l e :
  comprehension from_str (map VStr l) = Raise e →
  ∃ s cause, s ∈ l ∧ e = ValueError_parse s cause.
Proof.
  induction l as [|s l IH]; cbn [map comprehension]; [done|].
  destruct (from_str (VStr s)) as [p|e'] eqn:Hs.
  - destruct (comprehension from_str (map VStr l)) as [|e']; [done|].
    intros [= ->]. destruct IH as (s' & c & Hin & ->); [done|].
    exists s', c. split; [by right|done].
  - intros [= ->]. apply from_str_Raise in Hs as [_ ->].
    eexists s, _. split; [left|done].
Qed.

(** X14: the registry decides whether a run can be run again on its
    output: when some lookup returned a version that is written with a dash
    in it, a run on a manifest with the output as its dependencies raises
    the [ValueError] of [from_str], for an entry of the output, before any
    request. *)
Theorem update_manifest_deps_dash_in_version
    sched manifest max_workers w obj dependencies elems deps_orig deps_latest
    latest sched' manifest' max_workers' w' obj' :
  heap w !! manifest = Some obj →
  getitem obj "dependencies" = Ok dependencies →
  iter dependencies = Ok elems →
  comprehension from_str elems = Ok deps_orig →
  0 < max_workers →
  comprehension (fetch network) deps_orig = Ok deps_latest →
  latest ∈ deps_latest →
  count dash (format format_other (version latest)) ≠ 0%nat →
  heap w' !! manifest' = Some obj' →
  getitem obj' "dependencies" =
    Ok (VList (map VStr (sorted (map (__str__ format_other) deps_latest)))) →
  let run' := run_update sched' manifest' max_workers' w' in
  output_dependencies (run_update sched manifest max_workers w) =
    Some (VList (map VStr (sorted (map (__str__ format_other) deps_latest)))) ∧
  (∃ s cause,
     s ∈ sorted (map (__str__ format_other) deps_latest) ∧
     fst run' = Raise (ValueError_parse s cause)) ∧
  net_log (snd run') = net_log w'.
Proof.
  intros Hw Hget Hiter Hparse Hmw Hfetch Hin Hdash Hw' Hget' run'.
  split.
  { by destruct (update_manifest_deps_Ok format_other network sched _ _ _ _ _ _ _ _
                   Hw Hget Hiter Hparse Hmw Hfetch) as [_ ->]. }
  unfold run'. rewrite (update_manifest_deps_run _ _ _ _ _ _ _ Hw'). simpl.
  rewrite Hget'. simpl.
  set (out := sorted (map (__str__ format_other) deps_latest)).
  assert (is_ok (comprehension from_str (map VStr out)) = false) as Hfail.
  { apply (comprehension_Raise _ _ (VStr (__str__ format_other latest))).
    - apply list_elem_of_fmap. eexists. split; [done|].
      unfold out. rewrite sorted_Permutation. apply list_elem_of_fmap. eauto.
    - destruct (from_str (VStr (__str__ format_other latest))) as [q|] eqn:Hq;
        [|done].
      apply from_str_Ok in Hq as (a & b & c & Hs & _).
      pose proof (split_length dash (__str__ format_other latest)) as Hlen.
      rewrite Hs in Hlen. unfold __str__ in Hlen.
      rewrite !count_app in Hlen. simpl in Hlen. lia. }
  destruct (comprehension from_str (map VStr out)) as [|e] eqn:Hout; [done|].
  apply comprehension_from_str_Raise in Hout as (s & cause & Hs & ->).
  split; [|done]. by exists s, cause.
Qed.

End Edges.
Lemma update_manifest_deps_empty_witness :
  let run :=
    update_manifest_deps scenario_format scenario_network [] 0%nat 5
      (mkWorld [VDict [("dependencies", VStr "")]] [] ∅) in
  fst run = Ok 1%nat ∧
  output_dependencies run = Some (VList []) ∧
  net_log (snd run) = [].
Proof.
  apply (update_manifest_deps_empty scenario_format scenario_network [] 0%nat 5
           (mkWorld [VDict [("dependencies", VStr "")]] [] ∅)
           (VDict [("dependencies", VStr "")]) (VStr ""));
    solve [reflexivity | lia].
Defined.

Lemma update_manifest_deps_no_dependencies_witness :
  let run :=
    update_manifest_deps scenario_format scenario_network [] 0%nat 5
      (mkWorld [VDict [("name", VStr "LethalLuna")]] [] ∅) in
  (fst run = Raise (KeyError "dependencies") ∨ fst run = Raise TypeError) ∧
  net_log (snd run) = [] ∧
  files (snd run) = ∅.
Proof.
  apply (update_manifest_deps_no_dependencies scenario_format scenario_network
           [] 0%nat 5 (mkWorld [VDict [("name", VStr "LethalLuna")]] [] ∅)
           (VDict [("name", VStr "LethalLuna")])); [reflexivity|].
  intros dependencies H. discriminate H.
Defined.

Lemma update_manifest_deps_no_workers_witness :
  let run :=
    update_manifest_deps scenario_format scenario_network [] 0%nat 0
      (mkWorld [scenario_manifest] [] ∅) in
  is_ok (fst run) = false ∧ net_log (snd run) = [].
Proof.
  pose proof (update_manifest_deps_no_workers scenario_format scenario_network
                [] 0%nat 0 (mkWorld [scenario_manifest] [] ∅)) as H.
  destruct H as (H1 & H2 & _); [lia|]. split; [exact H1|exact H2].
Defined.

Lemma update_manifest_deps_first_bad_entry_witness :
  let run :=
    update_manifest_deps scenario_format scenario_network [] 0%nat 5
      (mkWorld [VDict [("dependencies",
                        VList [VStr "acme-widget-1.0.0"; VInt 7; VStr "a-b"])]]
         [] ∅) in
  fst run = Raise (AttributeError "split") ∧ net_log (snd run) = [].
Proof.
  pose proof (update_manifest_deps_first_bad_entry scenario_format
                scenario_network [] 0%nat 5
                (mkWorld [VDict [("dependencies",
                                  VList [VStr "acme-widget-1.0.0"; VInt 7;
                                         VStr "a-b"])]] [] ∅)
                (VDict [("dependencies",
                         VList [VStr "acme-widget-1.0.0"; VInt 7; VStr "a-b"])])
                (VList [VStr "acme-widget-1.0.0"; VInt 7; VStr "a-b"])
                [VStr "acme-widget-1.0.0"] [widget] (VInt 7) [VStr "a-b"]
                (AttributeError "split")
                eq_refl eq_refl eq_refl eq_refl eq_refl) as (H1 & H2 & _).
  split; [exact H1|exact H2].
Defined.

Lemma update_manifest_deps_other_keys_witness :
  let w :=
    mkWorld [VDict [("name", VStr "LethalLuna");
                    ("dependencies", VList [VStr "acme-widget-1.0.0"]);
                    ("version_number", VStr "0.3.1")]] [] ∅ in
  let run := update_manifest_deps scenario_format scenario_network [] 0%nat 5 w in
  ∃ items items',
    heap w !! 0%nat = Some (VDict items) ∧
    heap (snd run) !! 1%nat = Some (VDict items') ∧
    map fst items' = map fst items ∧
    (∀ key, key ≠ "dependencies" → dict_get key items' = dict_get key items).
Proof.
  apply (update_manifest_deps_other_keys scenario_format scenario_network
           [] 0%nat 5). reflexivity.
Defined.

Lemma update_manifest_deps_requests_witness :
  ∃ sent,
    net_log (snd (update_manifest_deps scenario_format scenario_network [] 0%nat 5
                    (mkWorld [unknown_manifest] [] ∅))) = [] ++ sent ∧
    sent ≡ₚ map request_of [widget; missing] ∧
    length sent = 2%nat.
Proof.
  apply (update_manifest_deps_requests scenario_format scenario_network
           [] 0%nat 5 (mkWorld [unknown_manifest] [] ∅) unknown_manifest
           (VList [VStr "acme-widget-1.0.0"; VStr "acme-missing-0.1.0"])
           [VStr "acme-widget-1.0.0"; VStr "acme-missing-0.1.0"]
           [widget; missing]);
    solve [reflexivity | lia].
Defined.

Lemma update_manifest_deps_first_failure_named_witness :
  let w :=
    mkWorld [VDict [("dependencies",
                     VList [VStr "acme-widget-1.0.0"; VStr "acme-missing-0.1.0";
                            VStr "acme-absent-0.2.0"])]] [] ∅ in
  fst (update_manifest_deps scenario_format scenario_network [0; 1]%nat 0%nat 5 w) =
    Raise (ValueError_latest (mkPackage "acme" "absent" (VStr "0.2.0"))
             (HTTPError 404 (_URL_API_EXP +:+ "/package/acme/absent/"))) ∧
  mkPackage "acme" "absent" (VStr "0.2.0") ∈
    [widget; missing; mkPackage "acme" "absent" (VStr "0.2.0")] ∧
  fetch scenario_network (mkPackage "acme" "absent" (VStr "0.2.0")) =
    Raise (HTTPError 404 (_URL_API_EXP +:+ "/package/acme/absent/")).
Proof.
  apply (update_manifest_deps_first_failure_named scenario_format scenario_network
           [0; 1]%nat 0%nat 5
           (mkWorld [VDict [("dependencies",
                             VList [VStr "acme-widget-1.0.0";
                                    VStr "acme-missing-0.1.0";
                                    VStr "acme-absent-0.2.0"])]] [] ∅)
           (VDict [("dependencies",
                    VList [VStr "acme-widget-1.0.0"; VStr "acme-missing-0.1.0";
                           VStr "acme-absent-0.2.0"])])
           (VList [VStr "acme-widget-1.0.0"; VStr "acme-missing-0.1.0";
                   VStr "acme-absent-0.2.0"])
           [VStr "acme-widget-1.0.0"; VStr "acme-missing-0.1.0";
            VStr "acme-absent-0.2.0"]
           [widget; missing; mkPackage "acme" "absent" (VStr "0.2.0")]
           [(Ok (mkPackage "acme" "widget" (VStr "1.2.0")), widget)]
           (HTTPError 404 (_URL_API_EXP +:+ "/package/acme/absent/"))
           (mkPackage "acme" "absent" (VStr "0.2.0"))
           [(Raise (HTTPError 404 (_URL_API_EXP +:+ "/package/acme/missing/")),
             missing)]);
    try solve [reflexivity | lia].
  by repeat constructor.
Defined.

Lemma update_manifest_deps_idempotent_witness :
  output_dependencies
    (update_manifest_deps scenario_format scenario_network [1%nat] 0%nat 1
       (mkWorld [VDict [("dependencies",
                         VList [VStr "acme-gadget-2.1.0"; VStr "acme-widget-1.2.0"])]]
          [] ∅)) =
  Some (VList (map VStr ["acme-gadget-2.1.0"; "acme-widget-1.2.0"])).
Proof.
  apply (update_manifest_deps_idempotent scenario_format scenario_network
           [] 0%nat 5 (mkWorld [scenario_manifest] [] ∅)
           ["acme-gadget-2.1.0"; "acme-widget-1.2.0"] [1%nat] 0%nat 1
           (mkWorld [VDict [("dependencies",
                             VList [VStr "acme-gadget-2.1.0";
                                    VStr "acme-widget-1.2.0"])]] [] ∅)
           (VDict [("dependencies",
                    VList [VStr "acme-gadget-2.1.0"; VStr "acme-widget-1.2.0"])]));
    try solve [reflexivity | lia].
  repeat constructor.
Defined.

Lemma update_manifest_deps_dash_in_version_witness :
  let network := answering 200 (scenario_body "1.2.0-beta") in
  let run' :=
    update_manifest_deps scenario_format network [] 0%nat 5
      (mkWorld [VDict [("dependencies", VList [VStr "acme-widget-1.2.0-beta"])]]
         [] ∅) in
  output_dependencies
    (update_manifest_deps scenario_format network [] 0%nat 5
       (mkWorld [VDict [("dependencies", VList [VStr "acme-widget-1.0.0"])]] [] ∅)) =
    Some (VList [VStr "acme-widget-1.2.0-beta"]) ∧
  (∃ s cause,
     s ∈ ["acme-widget-1.2.0-beta"] ∧
     fst run' = Raise (ValueError_parse s cause)) ∧
  net_log (snd run') = [].
Proof.
  apply (update_manifest_deps_dash_in_version scenario_format
           (answering 200 (scenario_body "1.2.0-beta"))
           [] 0%nat 5
           (mkWorld [VDict [("dependencies", VList [VStr "acme-widget-1.0.0"])]] [] ∅)
           (VDict [("dependencies", VList [VStr "acme-widget-1.0.0"])])
           (VList [VStr "acme-widget-1.0.0"]) [VStr "acme-widget-1.0.0"]
           [widget] [mkPackage "acme" "widget" (VStr "1.2.0-beta")]
           (mkPackage "acme" "widget" (VStr "1.2.0-beta"))
           [] 0%nat 5
           (mkWorld [VDict [("dependencies",
                             VList [VStr "acme-widget-1.2.0-beta"])]] [] ∅)
           (VDict [("dependencies", VList [VStr "acme-widget-1.2.0-beta"])]));
    try solve [reflexivity | lia | (simpl; lia)].
  left.
Defined.

(** ** [main] of [main.py] *)

Section MainProperties.

Variable format_other : value → string.
Variable network : request → http_outcome.
Variable json_loads : string → option value.
Variable json_dumps : value → string.
Variable writable : string → write_result.

Local Abbreviation run_main :=
  (main format_other network json_loads json_dumps writable).
Local Abbreviation run_update :=
  (update_manifest_deps format_other network).

(** A run of [main] on a manifest that can be read: the update, then the
    one write. *)
Lemma main_run sched args w text obj :
  files w !! args_input args = Some text →
  json_loads text = Some obj →
  run_main sched args w =
  match run_update sched (length (heap w)) (args_max_workers args)
          (set_heap (heap w ++ [obj]) w) with
  | (Raise e, w2) => (Raise e, w2)
  | (Ok copy, w2) =>
      match heap w2 !! copy with
      | None => (Raise InvalidReference, w2)
      | Some updated_obj =>
          write_text writable (args_output args) (json_dumps updated_obj) w2
      end
  end.
Proof.
  intros Hfile Hloads. unfold main. rewrite !bind_run. unfold read_text.
  rewrite Hfile, !bind_run. unfold loads. rewrite Hloads.
  unfold alloc. rewrite !bind_run.
  destruct (update_manifest_deps _ _ _ _ _ _) as [[copy|e] w2]; [|done].
  rewrite !bind_run. unfold load.
  by destruct (heap w2 !! copy).
Qed.

(** X15: when the manifest is read and decoded, its dependencies parse,
    the pool has workers, every lookup returns and the output can be
    written, [main] returns and the one change to the files is that the
    output holds the encoding of the manifest with its dependencies replaced
    by the sorted strings of the packages looked up; the file written is
    the same for every order of completion. *)
Theorem main_writes_updated_manifest
    sched args w text items dependencies elems deps_orig deps_latest :
  files w !! args_input args = Some text →
  json_loads text = Some (VDict items) →
  dict_get "dependencies" items = Some dependencies →
  iter dependencies = Ok elems →
  comprehension from_str elems = Ok deps_orig →
  0 < args_max_workers args →
  comprehension (fetch network) deps_orig = Ok deps_latest →
  writable (args_output args) = Written →
  fst (run_main sched args w) = Ok tt ∧
  files (snd (run_main sched args w)) =
    <[args_output args :=
        json_dumps
          (VDict (dict_set "dependencies"
                    (VList (map VStr (sorted (map (__str__ format_other)
                                                deps_latest))))
                    items))]> (files w).
Proof.
  intros Hfile Hloads Hget Hiter Hparse Hmw Hfetch Hwr.
  rewrite (main_run _ _ _ _ _ Hfile Hloads).
  rewrite (update_manifest_deps_run format_other network sched _ _ _ (VDict items));
    [|by apply list_lookup_middle].
  simpl. rewrite Hget, Hiter, Hparse.
  destruct (Z.leb_spec (args_max_workers args) 0) as [?|_]; [lia|].
  destruct (gather_as_completed_Ok network sched _ _ Hfetch)
    as (gathered & -> & Hperm).
  simpl. rewrite list_lookup_middle by done.
  unfold write_text. rewrite Hwr. simpl. split; [done|].
  unfold updated.
  rewrite (sorted_Permutation_eq (map (__str__ format_other) gathered)
             (map (__str__ format_other) deps_latest)); [done|].
  by rewrite Hperm.
Qed.


(** X17: without its input [main] does nothing: when there is no file at
    the input path it raises [FileNotFoundError], and when the file does
    not hold JSON it raises the decoding error; in both cases no object is
    made, no request is sent and no file is written. *)
Theorem main_bad_input sched args w :
  (files w !! args_input args = None →
   main format_other network json_loads json_dumps writable sched args w =
   (Raise (FileNotFoundError (args_input args)), w)) ∧
  (∀ text,
     files w !! args_input args = Some text → json_loads text = None →
     main format_other network json_loads json_dumps writable sched args w =
     (Raise JSONDecodeError, w)).
Proof.
  split.
  - intros Hfile. unfold main. rewrite !bind_run. unfold read_text.
    by rewrite Hfile.
  - intros text Hfile Hloads. unfold main. rewrite !bind_run. unfold read_text.
    rewrite Hfile, !bind_run. unfold loads. by rewrite Hloads.
Qed.

End MainProperties.

Lemma main_writes_updated_manifest_witness :
  let args := mkNamespace "manifest.json" "manifest.json" 5 false in
  let w := mkWorld [] [] {[ "manifest.json" := "scenario" ]} in
  let run :=
    main scenario_format scenario_network scenario_loads scenario_dumps
      (λ _, Written) [1%nat] args w in
  fst run = Ok tt ∧
  files (snd run) =
    <["manifest.json" := "updated"]> {[ "manifest.json" := "scenario" ]}.
Proof.
  exact (main_writes_updated_manifest scenario_format scenario_network
           scenario_loads scenario_dumps (λ _, Written) [1%nat]
           (mkNamespace "manifest.json" "manifest.json" 5 false)
           (mkWorld [] [] {[ "manifest.json" := "scenario" ]})
           "scenario"
           [("dependencies",
             VList [VStr "acme-widget-1.0.0"; VStr "acme-gadget-2.1.0"])]
           (VList [VStr "acme-widget-1.0.0"; VStr "acme-gadget-2.1.0"])
           [VStr "acme-widget-1.0.0"; VStr "acme-gadget-2.1.0"]
           [widget; gadget]
           [mkPackage "acme" "widget" (VStr "1.2.0"); gadget]
           eq_refl eq_refl eq_refl eq_refl eq_refl eq_refl eq_refl eq_refl).
Defined.

(** ** The earlier revisions *)

Section EarlierRevisions.

Variable format_other : value → string.
Variable network : request → http_outcome.

(** *** [update_deps.py] *)

Lemma update_deps_fetch self w :
  update_deps.get_latest network self w =
  (fetch_update_deps network self,
   set_net_log (net_log w ++ [request_without_timeout self]) w).
Proof.
  unfold fetch_update_deps. by rewrite !update_deps_get_latest_run.
Qed.

Lemma latest_strs_Ok deps_orig deps_latest w :
  comprehension (fetch_update_deps network) deps_orig = Ok deps_latest →
  update_deps_program.latest_strs format_other network deps_orig w =
  (Ok (map (__str__ format_other) deps_latest),
   set_net_log (net_log w ++ map request_without_timeout deps_orig) w).
Proof.
  revert deps_latest w.
  induction deps_orig as [|dep rest IH]; intros deps_latest w; simpl.
  - intros [= <-]. unfold ret. by rewrite set_net_log_nil.
  - destruct (fetch_update_deps network dep) as [latest|] eqn:Hdep; [|done].
    destruct (comprehension _ rest) as [ls|] eqn:Hrest; [|done].
    intros [= <-]. rewrite bind_run, update_deps_fetch, Hdep, bind_run.
    rewrite (IH ls) by done. unfold ret.
    by rewrite set_net_log_app.
Qed.

Lemma latest_strs_Raise good bad rest ls e w :
  comprehension (fetch_update_deps network) good = Ok ls →
  fetch_update_deps network bad = Raise e →
  update_deps_program.latest_strs format_other network (good ++ bad :: rest) w =
  (Raise e,
   set_net_log (net_log w ++ map request_without_timeout (good ++ [bad])) w).
Proof.
  revert ls w. induction good as [|dep good IH]; intros ls w; simpl.
  - intros _ Hbad. by rewrite bind_run, update_deps_fetch, Hbad.
  - destruct (fetch_update_deps network dep) as [latest|] eqn:Hdep; [|done].
    destruct (comprehension _ good) as [ls'|] eqn:Hgood; [|done].
    intros _ Hbad. rewrite bind_run, update_deps_fetch, Hdep, bind_run.
    rewrite (IH ls') by done. by rewrite set_net_log_app.
Qed.

Lemma insert_last {A} (l : list A) x y :
  <[length l:=y]> (l ++ [x]) = l ++ [y].
Proof.
  rewrite insert_app_r_alt by lia. by rewrite Nat.sub_diag.
Qed.

(** The run of [update_deps.py], stage by stage. *)
Lemma update_deps_run manifest w obj :
  heap w !! manifest = Some obj →
  update_deps_program.update_manifest_deps format_other network manifest w =
  let copy := length (heap w) in
  let w1 := set_heap (heap w ++ [obj]) w in
  match getitem obj "dependencies" with
  | Raise e => (Raise e, w1)
  | Ok dependencies =>
  match iter dependencies with
  | Raise e => (Raise e, w1)
  | Ok elems =>
  match comprehension from_str elems with
  | Raise e => (Raise e, w1)
  | Ok deps_orig =>
  match update_deps_program.latest_strs format_other network deps_orig w1 with
  | (Raise e, w2) => (Raise e, w2)
  | (Ok strs, w2) =>
      match heap w2 !! copy with
      | Some (VDict items) =>
          (Ok copy,
           set_heap (<[copy:=VDict (dict_set "dependencies" (VList (map VStr strs))
                                      items)]> (heap w2)) w2)
      | Some _ => (Raise TypeError, w2)
      | None => (Raise InvalidReference, w2)
      end
  end end end end.
Proof.
  intros Hw. unfold update_deps_program.update_manifest_deps, deepcopy, load, alloc.
  rewrite !bind_run, Hw, !bind_run. simpl.
  rewrite list_lookup_middle by done. rewrite !bind_run. unfold lift.
  destruct (getitem obj "dependencies") as [dependencies|]; [|done].
  rewrite !bind_run.
  destruct (iter dependencies) as [elems|]; [|done].
  rewrite !bind_run.
  destruct (comprehension from_str elems) as [deps_orig|]; [|done].
  rewrite !bind_run.
  destruct (update_deps_program.latest_strs _ _ _ _) as [[strs|e] w2]; [|done].
  rewrite !bind_run. unfold setitem, load. rewrite !bind_run.
  destruct (heap w2 !! length (heap w)) as [[]|]; done.
Qed.

(** X18: [update_deps.py] keeps the order of the input: when every
    dependency parses and every lookup returns, the run returns a copy
    whose dependencies are the strings of the packages looked up, entry for
    entry in the order of the input and unsorted, after one request for
    each, without a timeout and in that order. *)
Theorem update_deps_in_order
    manifest w obj dependencies elems deps_orig deps_latest :
  heap w !! manifest = Some obj →
  getitem obj "dependencies" = Ok dependencies →
  iter dependencies = Ok elems →
  comprehension from_str elems = Ok deps_orig →
  comprehension (fetch_update_deps network) deps_orig = Ok deps_latest →
  let run :=
    update_deps_program.update_manifest_deps format_other network manifest w in
  fst run = Ok (length (heap w)) ∧
  output_dependencies run =
    Some (VList (map VStr (map (__str__ format_other) deps_latest))) ∧
  net_log (snd run) = net_log w ++ map request_without_timeout deps_orig ∧
  heap (snd run) !! manifest = Some obj.
Proof.
  intros Hw Hget Hiter Hparse Hfetch run. unfold run.
  rewrite (update_deps_run _ _ _ Hw). simpl.
  rewrite Hget, Hiter, Hparse, (latest_strs_Ok _ _ _ Hfetch). simpl.
  rewrite list_lookup_middle by done.
  destruct (getitem_VDict _ _ _ Hget) as [items ->].
  unfold output_dependencies. simpl.
  rewrite insert_last. rewrite list_lookup_middle by done.
  rewrite dict_get_set. repeat split; try done.
  by apply lookup_app_l_Some.
Qed.

(** X19: [update_deps.py] stops at the first lookup that raises: the
    error is the one the lookup raised, as it is and without the package,
    requests have gone out for the dependencies up to that one and for no
    later one, and the caller's manifest is as it was. *)
Theorem update_deps_stops_at_first_failure
    manifest w obj dependencies elems good bad rest ls e :
  heap w !! manifest = Some obj →
  getitem obj "dependencies" = Ok dependencies →
  iter dependencies = Ok elems →
  comprehension from_str elems = Ok (good ++ bad :: rest) →
  comprehension (fetch_update_deps network) good = Ok ls →
  fetch_update_deps network bad = Raise e →
  let run :=
    update_deps_program.update_manifest_deps format_other network manifest w in
  fst run = Raise e ∧
  net_log (snd run) =
    net_log w ++ map request_without_timeout (good ++ [bad]) ∧
  heap (snd run) !! manifest = Some obj.
Proof.
  intros Hw Hget Hiter Hparse Hgood Hbad run. unfold run.
  rewrite (update_deps_run _ _ _ Hw). simpl.
  rewrite Hget, Hiter, Hparse, (latest_strs_Raise _ _ _ _ _ _ Hgood Hbad). simpl.
  repeat split; try done. by apply lookup_app_l_Some.
Qed.

(** *** [update_pkg_deps.py] *)

Local Abbreviation futures_without_timeout deps_orig :=
  (map (λ pkg, (fetch_update_pkg_deps network pkg, pkg)) deps_orig).

Lemma update_pkg_deps_fetch self w :
  update_pkg_deps.get_latest network self w =
  (fetch_update_pkg_deps network self,
   set_net_log (net_log w ++ [request_without_timeout self]) w).
Proof.
  unfold fetch_update_pkg_deps. by rewrite !update_pkg_deps_get_latest_run.
Qed.

Lemma update_pkg_deps_submit_all_run deps_orig w :
  update_pkg_deps_program.submit_all network deps_orig w =
  (Ok (futures_without_timeout deps_orig),
   set_net_log (net_log w ++ map request_without_timeout deps_orig) w).
Proof.
  revert w. induction deps_orig as [|pkg rest IH]; intros w; simpl.
  - unfold ret. by rewrite set_net_log_nil.
  - rewrite bind_run. unfold update_pkg_deps_program.submit.
    rewrite update_pkg_deps_fetch, bind_run, IH. unfold ret.
    by rewrite set_net_log_app.
Qed.

(** The run of [update_pkg_deps.py], stage by stage. *)
Lemma update_pkg_deps_run sched manifest max_workers w obj :
  heap w !! manifest = Some obj →
  update_pkg_deps_program.update_manifest_deps format_other network sched manifest
    max_workers w =
  let copy := length (heap w) in
  let w1 := set_heap (heap w ++ [obj]) w in
  match getitem obj "dependencies" with
  | Raise e => (Raise e, w1)
  | Ok dependencies =>
  match iter dependencies with
  | Raise e => (Raise e, w1)
  | Ok elems =>
  match comprehension from_str elems with
  | Raise e => (Raise e, w1)
  | Ok deps_orig =>
  if default _DEFAULT_MAX_WORKERS max_workers <=? 0
  then (Raise ValueError_max_workers, w1) else
  let w2 :=
    set_net_log (net_log w ++ map request_without_timeout deps_orig) w1 in
  match gather (as_completed sched (futures_without_timeout deps_orig)) [] with
  | Raise e => (Raise e, w2)
  | Ok deps_latest =>
  match obj with
  | VDict items =>
      (Ok copy,
       set_heap
         (heap w ++
          [VDict (dict_set "dependencies"
                    (VList (map VStr (map (__str__ format_other) deps_latest)))
                    items)]) w2)
  | _ => (Raise TypeError, w2)
  end end end end end.
Proof.
  intros Hw.
  unfold update_pkg_deps_program.update_manifest_deps, deepcopy, load, alloc.
  rewrite !bind_run, Hw, !bind_run. simpl.
  rewrite list_lookup_middle by done. rewrite !bind_run. unfold lift.
  destruct (getitem obj "dependencies") as [dependencies|]; [|done].
  rewrite !bind_run.
  destruct (iter dependencies) as [elems|]; [|done].
  rewrite !bind_run.
  destruct (comprehension from_str elems) as [deps_orig|]; [|done].
  rewrite !bind_run. unfold ThreadPoolExecutor.
  destruct (default _DEFAULT_MAX_WORKERS max_workers <=? 0); [done|].
  unfold ret at 1.
  rewrite !bind_run, update_pkg_deps_submit_all_run, !bind_run.
  destruct (gather _ []) as [deps_latest|]; [|done].
  rewrite !bind_run. unfold setitem, load. rewrite !bind_run. simpl.
  rewrite list_lookup_middle by done.
  destruct obj; try done.
  unfold store, ret. simpl. by rewrite insert_last.
Qed.

Lemma futures_all_Ok (f : Package → result Package) deps_orig deps_latest :
  comprehension f deps_orig = Ok deps_latest →
  Forall (λ fp : Future * Package, is_ok (fst fp) = true)
    (map (λ pkg, (f pkg, pkg)) deps_orig) ∧
  omap returned (map (λ pkg, (f pkg, pkg)) deps_orig) = deps_latest.
Proof.
  intros H%comprehension_Forall2.
  induction H as [|pkg latest deps_orig deps_latest Hpkg _ [IH1 IH2]]; simpl.
  - by split.
  - split.
    + constructor; [simpl; by rewrite Hpkg|done].
    + unfold returned at 1. simpl. rewrite Hpkg. simpl. by f_equal.
Qed.

(** What a future holds, or its package when it holds an error. *)
Lemma omap_returned_map (completed : list (Future * Package)) :
  Forall (λ fp, is_ok (fst fp) = true) completed →
  omap returned completed =
  map (λ fp, match fst fp with Ok latest => latest | Raise _ => snd fp end)
    completed.
Proof.
  induction 1 as [|[[latest|] pkg] completed Hok _ IH]; simpl; [done| |done].
  unfold returned at 1. simpl. by f_equal.
Qed.

Lemma update_pkg_deps_output
    sched manifest max_workers w obj dependencies elems deps_orig completed :
  heap w !! manifest = Some obj →
  getitem obj "dependencies" = Ok dependencies →
  iter dependencies = Ok elems →
  comprehension from_str elems = Ok deps_orig →
  0 < default _DEFAULT_MAX_WORKERS max_workers →
  gather (as_completed sched (futures_without_timeout deps_orig)) [] =
    Ok completed →
  output_dependencies
    (update_pkg_deps_program.update_manifest_deps format_other network sched
       manifest max_workers w) =
    Some (VList (map VStr (map (__str__ format_other) completed))).
Proof.
  intros Hw Hget Hiter Hparse Hmw Hg.
  destruct (getitem_VDict _ _ _ Hget) as [items ->].
  rewrite (update_pkg_deps_run _ _ _ _ _ Hw). simpl.
  simpl in Hget. rewrite Hget, Hiter, Hparse.
  destruct (Z.leb_spec (default _DEFAULT_MAX_WORKERS max_workers) 0)
    as [?|_]; [lia|].
  rewrite Hg. unfold output_dependencies. simpl.
  rewrite list_lookup_middle by done. apply dict_get_set.
Qed.

Lemma update_pkg_deps_gather sched deps_orig deps_latest :
  comprehension (fetch_update_pkg_deps network) deps_orig = Ok deps_latest →
  ∃ completed,
    completed ≡ₚ deps_latest ∧
    gather (as_completed sched (futures_without_timeout deps_orig)) [] =
      Ok completed.
Proof.
  intros [Hall Hret]%futures_all_Ok.
  pose proof (as_completed_Permutation sched
                (futures_without_timeout deps_orig)) as Hperm.
  eexists. split; [|apply gather_Ok; by rewrite Hperm].
  simpl. by rewrite Hperm, Hret.
Qed.

(** X20: [update_pkg_deps.py] writes the dependencies in the order in
    which the lookups complete: when every dependency parses, the pool has
    workers and every lookup returns, the run returns the strings of the
    packages looked up, each once, in the order in which [as_completed]
    yields their futures, and unsorted. *)
Theorem update_pkg_deps_completion_order
    sched manifest max_workers w obj dependencies elems deps_orig deps_latest :
  heap w !! manifest = Some obj →
  getitem obj "dependencies" = Ok dependencies →
  iter dependencies = Ok elems →
  comprehension from_str elems = Ok deps_orig →
  0 < default _DEFAULT_MAX_WORKERS max_workers →
  comprehension (fetch_update_pkg_deps network) deps_orig = Ok deps_latest →
  let completed :=
    omap returned (as_completed sched (futures_without_timeout deps_orig)) in
  output_dependencies
    (update_pkg_deps_program.update_manifest_deps format_other network sched
       manifest max_workers w) =
    Some (VList (map VStr (map (__str__ format_other) completed))) ∧
  completed ≡ₚ deps_latest.
Proof.
  intros Hw Hget Hiter Hparse Hmw Hfetch completed. unfold completed.
  destruct (futures_all_Ok _ _ _ Hfetch) as [Hall Hret].
  pose proof (as_completed_Permutation sched
                (futures_without_timeout deps_orig)) as Hperm.
  split; [|by rewrite Hperm, Hret].
  apply (update_pkg_deps_output _ _ _ _ _ _ _ _ _ Hw Hget Hiter Hparse Hmw).
  rewrite gather_Ok by (by rewrite Hperm). done.
Qed.

(** X21: the final revision is the earlier one with a sort: against a
    registry whose answers do not depend on the timeout, when every
    dependency parses and every lookup returns, what [main.py] writes is
    what [update_pkg_deps.py] writes, sorted, whatever the two orders of
    completion. *)
Theorem main_py_sorts_update_pkg_deps
    sched sched' manifest max_workers max_workers' w obj dependencies elems
    deps_orig deps_latest :
  (∀ url timeout, network (mkRequest url timeout) = network (mkRequest url None)) →
  heap w !! manifest = Some obj →
  getitem obj "dependencies" = Ok dependencies →
  iter dependencies = Ok elems →
  comprehension from_str elems = Ok deps_orig →
  0 < default _DEFAULT_MAX_WORKERS max_workers →
  0 < max_workers' →
  comprehension (fetch_update_pkg_deps network) deps_orig = Ok deps_latest →
  ∃ out,
    output_dependencies
      (update_pkg_deps_program.update_manifest_deps format_other network sched
         manifest max_workers w) = Some (VList (map VStr out)) ∧
    output_dependencies
      (update_manifest_deps format_other network sched' manifest max_workers' w) =
      Some (VList (map VStr (sorted out))).
Proof.
  intros Hblind Hw Hget Hiter Hparse Hmw Hmw' Hfetch.
  assert (∀ pkg, fetch network pkg = fetch_update_pkg_deps network pkg) as Hsame.
  { intros pkg. unfold fetch, fetch_update_pkg_deps.
    rewrite get_latest_outcome, update_pkg_deps_get_latest_run. simpl.
    unfold request_without_timeout. by rewrite Hblind. }
  assert (comprehension (fetch network) deps_orig = Ok deps_latest) as Hfetch'.
  { rewrite <- Hfetch. clear -Hsame.
    induction deps_orig as [|pkg rest IH]; simpl; [done|].
    by rewrite Hsame, IH. }
  destruct (update_pkg_deps_gather sched _ _ Hfetch) as (completed & Hperm & Hg).
  exists (map (__str__ format_other) completed). split.
  { by apply (update_pkg_deps_output _ _ _ _ _ _ _ _ _ Hw Hget Hiter Hparse Hmw). }
  destruct (update_manifest_deps_Ok format_other network sched' _ _ _ _ _ _ _ _
              Hw Hget Hiter Hparse Hmw' Hfetch') as [_ ->].
  do 3 f_equal. apply sorted_Permutation_eq. by rewrite Hperm.
Qed.

End EarlierRevisions.

(** *** [main] of the earlier revisions *)

Section EarlierMains.

Variable format_other : value → string.
Variable network : request → http_outcome.
Variable json_loads : string → option value.
Variable json_dumps : value → string.
Variable writable : string → write_result.

Lemma latest_strs_files deps_orig w :
  files (snd (update_deps_program.latest_strs format_other network deps_orig w)) =
  files w.
Proof.
  revert w. induction deps_orig as [|dep rest IH]; intros w; simpl; [done|].
  rewrite bind_run, update_deps_fetch.
  destruct (fetch_update_deps network dep); [|done].
  rewrite bind_run. specialize (IH (set_net_log
    (net_log w ++ [request_without_timeout dep]) w)).
  by destruct (update_deps_program.latest_strs _ _ _ _) as [[] ?].
Qed.

Lemma update_deps_files manifest w :
  files (snd (update_deps_program.update_manifest_deps format_other network
                manifest w)) = files w.
Proof.
  destruct (heap w !! manifest) as [obj|] eqn:Hw.
  2: { unfold update_deps_program.update_manifest_deps, deepcopy, load.
       rewrite !bind_run. by rewrite Hw. }
  rewrite (update_deps_run _ _ _ _ _ Hw). simpl.
  destruct (getitem obj "dependencies") as [dependencies|]; [|done].
  destruct (iter dependencies) as [elems|]; [|done].
  destruct (comprehension from_str elems) as [deps_orig|]; [|done].
  pose proof (latest_strs_files deps_orig (set_heap (heap w ++ [obj]) w)) as Hf.
  destruct (update_deps_program.latest_strs _ _ _ _) as [[strs|] w2];
    simpl in Hf; [|done].
  by repeat case_match.
Qed.

Lemma update_pkg_deps_files sched manifest max_workers w :
  files (snd (update_pkg_deps_program.update_manifest_deps format_other network
                sched manifest max_workers w)) = files w.
Proof.
  destruct (heap w !! manifest) as [obj|] eqn:Hw.
  2: { unfold update_pkg_deps_program.update_manifest_deps, deepcopy, load.
       rewrite !bind_run. by rewrite Hw. }
  rewrite (update_pkg_deps_run _ _ _ _ _ _ _ Hw). simpl.
  by repeat case_match.
Qed.

(** X22: the [main] of [update_deps.py] and of [update_pkg_deps.py] takes a
    command line without [-i] or without [-o] and then raises [TypeError]
    before it reads anything; and like the final [main] each writes only at
    its end: a run that raises leaves every file as it was, unless what
    raised is the write itself after the output was opened, and then the
    output holds the start of the text that the same run leaves there when
    the write goes through. *)
Theorem earlier_mains_write_last :
  (∀ args w,
     update_deps_program.args_input args = None ∨
     update_deps_program.args_output args = None →
     update_deps_program.main format_other network json_loads json_dumps writable
       args w = (Raise TypeError, w)) ∧
  (∀ args w e,
     let run :=
       update_deps_program.main format_other network json_loads json_dumps
         writable args w in
     fst run = Raise e →
     files (snd run) = files w ∨
     ∃ path_out written text,
       update_deps_program.args_output args = Some path_out ∧
       e = OSError path_out ∧
       writable path_out = Failed written ∧
       fst (update_deps_program.main format_other network json_loads
              json_dumps always_written args w) = Ok tt ∧
       files (snd (update_deps_program.main format_other network json_loads
                     json_dumps always_written args w)) =
         <[path_out:=text]> (files w) ∧
       files (snd run) =
         <[path_out:=String.substring 0 written text]> (files w)) ∧
  (∀ sched args w,
     update_pkg_deps_program.args_input args = None ∨
     update_pkg_deps_program.args_output args = None →
     update_pkg_deps_program.main format_other network json_loads json_dumps
       writable sched args w = (Raise TypeError, w)) ∧
  (∀ sched args w e,
     let run :=
       update_pkg_deps_program.main format_other network json_loads json_dumps
         writable sched args w in
     fst run = Raise e →
     files (snd run) = files w ∨
     ∃ path_out written text,
       update_pkg_deps_program.args_output args = Some path_out ∧
       e = OSError path_out ∧
       writable path_out = Failed written ∧
       fst (update_pkg_deps_program.main format_other network json_loads
              json_dumps always_written sched args w) = Ok tt ∧
       files (snd (update_pkg_deps_program.main format_other network
                     json_loads json_dumps always_written sched args w)) =
         <[path_out:=text]> (files w) ∧
       files (snd run) =
         <[path_out:=String.substring 0 written text]> (files w)).
Proof.
  split; [|split; [|split]].
  - intros [[input|] [output|] verbose] w [H|H]; simpl in H; done.
  - intros [input output verbose] w e run. unfold run.
    unfold update_deps_program.main. simpl. rewrite !bind_run.
    destruct input as [path_in|]; [|by left]. simpl. rewrite !bind_run.
    destruct output as [path_out|]; [|by left]. simpl. rewrite !bind_run.
    unfold read_text. destruct (files w !! path_in) as [text|]; [|by left].
    rewrite !bind_run. unfold loads.
    destruct (json_loads text) as [obj|]; [|by left].
    unfold alloc. rewrite !bind_run.
    pose proof (update_deps_files (length (heap w))
                  (set_heap (heap w ++ [obj]) w)) as Hfiles.
    destruct (update_deps_program.update_manifest_deps _ _ _ _) as [[copy|] w2];
      [|by left].
    simpl in Hfiles. rewrite !bind_run. unfold load.
    destruct (heap w2 !! copy) as [updated_obj|]; [|by left].
    unfold write_text, always_written.
    destruct (writable path_out) as [| |written] eqn:Hwr; [done|by left|].
    simpl. intros [= <-]. right.
    exists path_out, written, (json_dumps updated_obj). by rewrite Hfiles.
  - intros sched [[input|] [output|] verbose] w [H|H]; simpl in H; done.
  - intros sched [input output verbose] w e run. unfold run.
    unfold update_pkg_deps_program.main. simpl. rewrite !bind_run.
    destruct input as [path_in|]; [|by left]. simpl. rewrite !bind_run.
    destruct output as [path_out|]; [|by left]. simpl. rewrite !bind_run.
    unfold read_text. destruct (files w !! path_in) as [text|]; [|by left].
    rewrite !bind_run. unfold loads.
    destruct (json_loads text) as [obj|]; [|by left].
    unfold alloc. rewrite !bind_run.
    pose proof (update_pkg_deps_files sched (length (heap w)) None
                  (set_heap (heap w ++ [obj]) w)) as Hfiles.
    destruct (update_pkg_deps_program.update_manifest_deps _ _ _ _ _ _)
      as [[copy|] w2]; [|by left].
    simpl in Hfiles. rewrite !bind_run. unfold load.
    destruct (heap w2 !! copy) as [updated_obj|]; [|by left].
    unfold write_text, always_written.
    destruct (writable path_out) as [| |written] eqn:Hwr; [done|by left|].
    simpl. intros [= <-]. right.
    exists path_out, written, (json_dumps updated_obj). by rewrite Hfiles.
Qed.

End EarlierMains.

Lemma update_deps_in_order_witness :
  let run :=
    update_deps_program.update_manifest_deps scenario_format scenario_network
      0%nat (mkWorld [scenario_manifest] [] ∅) in
  fst run = Ok 1%nat ∧
  output_dependencies run =
    Some (VList [VStr "acme-widget-1.2.0"; VStr "acme-gadget-2.1.0"]) ∧
  net_log (snd run) =
    [] ++ map request_without_timeout [widget; gadget] ∧
  heap (snd run) !! 0%nat = Some scenario_manifest.
Proof.
  exact (update_deps_in_order scenario_format scenario_network 0%nat
           (mkWorld [scenario_manifest] [] ∅) scenario_manifest
           (VList [VStr "acme-widget-1.0.0"; VStr "acme-gadget-2.1.0"])
           [VStr "acme-widget-1.0.0"; VStr "acme-gadget-2.1.0"]
           [widget; gadget]
           [mkPackage "acme" "widget" (VStr "1.2.0"); gadget]
           eq_refl eq_refl eq_refl eq_refl eq_refl).
Defined.

Lemma update_deps_stops_at_first_failure_witness :
  let w :=
    mkWorld [VDict [("dependencies",
                     VList [VStr "acme-missing-0.1.0"; VStr "acme-widget-1.0.0"])]]
      [] ∅ in
  let run :=
    update_deps_program.update_manifest_deps scenario_format scenario_network
      0%nat w in
  fst run = Raise JSONDecodeError ∧
  net_log (snd run) = [] ++ map request_without_timeout ([] ++ [missing]) ∧
  heap (snd run) !! 0%nat = heap w !! 0%nat.
Proof.
  exact (update_deps_stops_at_first_failure scenario_format scenario_network 0%nat
           (mkWorld [VDict [("dependencies",
                             VList [VStr "acme-missing-0.1.0";
                                    VStr "acme-widget-1.0.0"])]] [] ∅)
           (VDict [("dependencies",
                    VList [VStr "acme-missing-0.1.0"; VStr "acme-widget-1.0.0"])])
           (VList [VStr "acme-missing-0.1.0"; VStr "acme-widget-1.0.0"])
           [VStr "acme-missing-0.1.0"; VStr "acme-widget-1.0.0"]
           [] missing [widget] [] JSONDecodeError
           eq_refl eq_refl eq_refl eq_refl eq_refl eq_refl).
Defined.

Lemma update_pkg_deps_completion_order_witness :
  output_dependencies
    (update_pkg_deps_program.update_manifest_deps scenario_format
       scenario_network [1%nat] 0%nat None (mkWorld [scenario_manifest] [] ∅)) =
    Some (VList [VStr "acme-gadget-2.1.0"; VStr "acme-widget-1.2.0"]) ∧
  [gadget; mkPackage "acme" "widget" (VStr "1.2.0")] ≡ₚ
    [mkPackage "acme" "widget" (VStr "1.2.0"); gadget].
Proof.
  exact (update_pkg_deps_completion_order scenario_format scenario_network
           [1%nat] 0%nat None (mkWorld [scenario_manifest] [] ∅) scenario_manifest
           (VList [VStr "acme-widget-1.0.0"; VStr "acme-gadget-2.1.0"])
           [VStr "acme-widget-1.0.0"; VStr "acme-gadget-2.1.0"]
           [widget; gadget]
           [mkPackage "acme" "widget" (VStr "1.2.0"); gadget]
           eq_refl eq_refl eq_refl eq_refl eq_refl eq_refl).
Defined.

Lemma main_py_sorts_update_pkg_deps_witness :
  ∃ out,
    output_dependencies
      (update_pkg_deps_program.update_manifest_deps scenario_format
         scenario_network [] 0%nat None (mkWorld [scenario_manifest] [] ∅)) =
      Some (VList (map VStr out)) ∧
    output_dependencies
      (update_manifest_deps scenario_format scenario_network [1%nat] 0%nat 5
         (mkWorld [scenario_manifest] [] ∅)) =
      Some (VList (map VStr (sorted out))).
Proof.
  apply (main_py_sorts_update_pkg_deps scenario_format scenario_network
           [] [1%nat] 0%nat None 5 (mkWorld [scenario_manifest] [] ∅)
           scenario_manifest
           (VList [VStr "acme-widget-1.0.0"; VStr "acme-gadget-2.1.0"])
           [VStr "acme-widget-1.0.0"; VStr "acme-gadget-2.1.0"]
           [widget; gadget]
           [mkPackage "acme" "widget" (VStr "1.2.0"); gadget]);
    solve [reflexivity | lia].
Defined.

(** In the scenario [update_pkg_deps.py] writes widget first when widget
    completes first and gadget first when gadget does. *)
Example update_pkg_deps_order_example :
  output_dependencies
    (update_pkg_deps_program.update_manifest_deps scenario_format
       scenario_network [0%nat] 0%nat None (mkWorld [scenario_manifest] [] ∅)) =
    Some (VList [VStr "acme-widget-1.2.0"; VStr "acme-gadget-2.1.0"]) ∧
  output_dependencies
    (update_pkg_deps_program.update_manifest_deps scenario_format
       scenario_network [1%nat] 0%nat None (mkWorld [scenario_manifest] [] ∅)) =
    Some (VList [VStr "acme-gadget-2.1.0"; VStr "acme-widget-1.2.0"]).
Proof. split; reflexivity. Qed.

(** When [dependencies] is a string, its first character is the entry
    that does not parse. *)
Example dependencies_str_example :
  fst (update_manifest_deps scenario_format scenario_network [] 0%nat 5
         (mkWorld [VDict [("dependencies", VStr "é-")]] [] ∅)) =
  Raise (ValueError_parse "é" (ValueError_unpack 1)).
Proof. reflexivity. Qed.

(** A write that fails after three characters: the manifest, which is its
    own output here, is left holding the first three characters of the new
    text. *)
Example main_partial_write_example :
  let args := mkNamespace "manifest.json" "manifest.json" 5 false in
  let w := mkWorld [] [] {[ "manifest.json" := "scenario" ]} in
  let run :=
    main scenario_format scenario_network scenario_loads scenario_dumps
      (λ _, Failed 3) [1%nat] args w in
  fst run = Raise (OSError "manifest.json") ∧
  files (snd run) !! "manifest.json" = Some "upd".
Proof. split; reflexivity. Qed.
